(** * The streaming ETL stack (cdk/lib/streaming-etl.ts)

    A shallow embedding of the [StreamingEtl] stack constructor: every
    construct the constructor creates becomes a value registered in the
    stack under its construct id, every mutating call made after
    creation ([addDependsOn], [addIngressRule], [addCommands],
    [addDependency], [addWidgets]) becomes an update of the stack that is
    threaded through the constructor in source order. *)

From stdpp Require Import base strings gmap list fin_maps.
From Stdlib Require Import ZArith Ascii.

Local Open Scope string_scope.
Local Open Scope list_scope.
Local Open Scope Z_scope.

(** ** Tokens and text

    A template literal of the source is a sequence of literal pieces and
    of interpolated tokens.  A token stands for a value that is only
    known at deployment time. *)

Inductive Token :=
| Ref (logicalId : string)            (* bucket.bucketName, kdaApp.ref, ... *)
| GetAtt (logicalId attr : string)    (* bucket.bucketArn, role.roleArn, ... *)
| Pseudo (name : string)              (* cdk.Aws.REGION, cdk.Aws.STACK_NAME, ... *)
| LogicalId (constructId : string).   (* instance.instance.logicalId *)

(** The shell parameter [$?] inside a command line is kept as a fragment
    of its own; [render] prints it back as the two characters. *)
Inductive Frag :=
| Lit (s : string)
| Tok (t : Token)
| ExitStatus.

Definition Text := list Frag.

(** A property value: a text, a boolean, a number, or
    [cdk.Fn.join(sep, cdk.Fn.split(on, text))]. *)
Inductive Value :=
| VText (t : Text)
| VBool (b : bool)
| VNum (n : Z)
| VJoinSplit (sep on : string) (t : Text).

#[global] Instance Token_eq_dec : EqDecision Token.
Proof. solve_decision. Defined.
#[global] Instance Frag_eq_dec : EqDecision Frag.
Proof. solve_decision. Defined.
#[global] Instance Value_eq_dec : EqDecision Value.
Proof. solve_decision. Defined.

Definition token_target (t : Token) : list string :=
  match t with
  | Ref i => [i]
  | GetAtt i _ => [i]
  | Pseudo _ => []
  | LogicalId _ => []
  end.

Definition frag_refs (f : Frag) : list string :=
  match f with
  | Tok t => token_target t
  | _ => []
  end.

(** The constructs a text refers to through [Ref] or [GetAtt]. *)
Definition text_refs (t : Text) : list string := t ≫= frag_refs.

Definition value_refs (v : Value) : list string :=
  match v with
  | VText t => text_refs t
  | VJoinSplit _ _ t => text_refs t
  | _ => []
  end.

Definition render_token (t : Token) : string :=
  match t with
  | Ref i => "${" +:+ i +:+ "}"
  | GetAtt i a => "${" +:+ i +:+ "." +:+ a +:+ "}"
  | Pseudo n => "${" +:+ n +:+ "}"
  | LogicalId i => i
  end.

Definition render_frag (f : Frag) : string :=
  match f with
  | Lit s => s
  | Tok t => render_token t
  | ExitStatus => "$?"
  end.

Definition render (t : Text) : string :=
  foldr (λ f acc, render_frag f +:+ acc) EmptyString t.

(** ** Durations ([Duration] of @aws-cdk/core) *)

Inductive TimeUnit := Milliseconds | Seconds | Minutes | Hours | Days.

Record Duration := { amount : Z; unit : TimeUnit }.

#[global] Instance TimeUnit_eq_dec : EqDecision TimeUnit.
Proof. solve_decision. Defined.
#[global] Instance Duration_eq_dec : EqDecision Duration.
Proof. solve_decision. Defined.

Definition Duration_days (n : Z) : Duration := {| amount := n; unit := Days |}.
Definition Duration_minutes (n : Z) : Duration := {| amount := n; unit := Minutes |}.

Definition unit_millis (u : TimeUnit) : Z :=
  match u with
  | Milliseconds => 1
  | Seconds => 1000
  | Minutes => 60000
  | Hours => 3600000
  | Days => 86400000
  end.

Definition toMilliseconds (d : Duration) : Z := amount d * unit_millis (unit d).
Definition toSeconds (d : Duration) : Z := toMilliseconds d / 1000.
Definition toDays (d : Duration) : Z := toMilliseconds d / 86400000.

(** ** Construct properties, one module per imported package *)

Module s3.
Inductive RemovalPolicy := DESTROY | RETAIN | SNAPSHOT.
Inductive BlockPublicAccess := BLOCK_ALL | BLOCK_ACLS.

Record BucketMetrics := { id : string }.

Record LifecycleRule :=
    { abortIncompleteMultipartUploadAfter : option Duration }.

Record BucketProps :=
    { versioned : option bool;
      removalPolicy : option RemovalPolicy;
      blockPublicAccess : option BlockPublicAccess;
      metrics : list BucketMetrics;
      lifecycleRules : list LifecycleRule }.

(** A bucket declared without a removal policy is retained when the
    stack is torn down. *)
Definition defaultRemovalPolicy : RemovalPolicy := RETAIN.

Definition deletionPolicy (p : BucketProps) : RemovalPolicy :=
    default defaultRemovalPolicy (removalPolicy p).

Definition isVersioned (p : BucketProps) : bool :=
    default false (versioned p).

(** Teardown may destroy the stored objects only under [DESTROY]. *)
Definition allowsDestructiveTeardown (p : BucketProps) : bool :=
    match deletionPolicy p with
    | DESTROY => true
    | _ => false
    end.
End s3.

Module kds.
Record StreamProps := { shardCount : option Z }.
End kds.

Module logs.
Inductive RetentionDays := ONE_DAY | ONE_WEEK | ONE_MONTH.
Record LogGroupProps := { retention : option RetentionDays }.
Record LogStreamProps := { logGroup : string }.
End logs.

Module iam.
Record PolicyStatement :=
    { actions : list string;
      resources : list Text }.

Record RoleProps :=
    { assumedBy : string;
      managedPolicies : list string }.
End iam.

Module kda.
Record PropertyGroup :=
  { propertyGroupId : string;
    propertyMap : gmap string Value }.

Record EnvironmentProperties := { propertyGroups : list PropertyGroup }.

Record MonitoringConfiguration :=
  { logLevel : string;
    metricsLevel : string;
    monitoringConfigurationType : string }.

Record ParallelismConfiguration :=
  { autoScalingEnabled : bool;
    parallelism : Z;
    parallelismPerKpu : Z;
    parallelismConfigurationType : string }.

(** Of a checkpoint configuration only the configuration type is
    mandatory in the construct's property type. *)
Record CheckpointConfiguration :=
  { checkpointConfigurationType : string;
    checkpointInterval : option Z;
    minPauseBetweenCheckpoints : option Z;
    checkpointingEnabled : option bool }.

Record FlinkApplicationConfiguration :=
  { monitoringConfiguration : MonitoringConfiguration;
    parallelismConfiguration : ParallelismConfiguration;
    checkpointConfiguration : CheckpointConfiguration }.

Record ApplicationSnapshotConfiguration := { snapshotsEnabled : bool }.

Record S3ContentLocation := { bucketArn : Text; fileKey : string }.
Record CodeContent := { s3ContentLocation : S3ContentLocation }.

Record ApplicationCodeConfiguration :=
  { codeContent : CodeContent;
    codeContentType : string }.

Record ApplicationConfiguration :=
  { environmentProperties : EnvironmentProperties;
    flinkApplicationConfiguration : FlinkApplicationConfiguration;
    applicationSnapshotConfiguration : ApplicationSnapshotConfiguration;
    applicationCodeConfiguration : ApplicationCodeConfiguration }.

Record CfnApplicationV2Props :=
  { runtimeEnvironment : string;
    serviceExecutionRole : Text;
    applicationName : Text;
    applicationConfiguration : ApplicationConfiguration }.

Record CloudWatchLoggingOption := { logStreamArn : Text }.

Record CfnApplicationCloudWatchLoggingOptionV2Props :=
  { loggingApplicationName : Text;
    cloudWatchLoggingOption : CloudWatchLoggingOption }.
End kda.

Module ec2.
Inductive SubnetType := PUBLIC | PRIVATE | ISOLATED.

Record SubnetConfiguration :=
  { cidrMask : Z;
    name : string;
    subnetType : SubnetType }.

Record VpcProps := { subnetConfiguration : list SubnetConfiguration }.

(** [ec2.Peer]: who may connect.  A security group is itself a peer. *)
Inductive Peer :=
| anyIpv4
| ipv4 (base mask : Z)
| securityGroupPeer (sg : string).

(** [ec2.Port]: what may be connected to. *)
Inductive Port :=
| tcp (port : Z)
| tcpRange (lo hi : Z)
| udp (port : Z)
| allTcp
| allTraffic.

Record IngressRule := { peer : Peer; connection : Port }.

#[global] Instance Peer_eq_dec : EqDecision Peer.
Proof. solve_decision. Defined.
#[global] Instance Port_eq_dec : EqDecision Port.
Proof. solve_decision. Defined.
#[global] Instance IngressRule_eq_dec : EqDecision IngressRule.
Proof. solve_decision. Defined.

Inductive InstanceClass := C5 | C5N | M5 | T3.
Inductive InstanceSize := MICRO | SMALL | MEDIUM | LARGE | XLARGE.
Inductive AmazonLinuxGeneration := AMAZON_LINUX | AMAZON_LINUX_2.

Record InstanceType := { class : InstanceClass; size : InstanceSize }.
Definition InstanceType_of (c : InstanceClass) (s : InstanceSize) : InstanceType :=
  {| class := c; size := s |}.

Record AmazonLinuxImage := { generation : AmazonLinuxGeneration }.

(** [userData] is the address of a [UserData] object of the stack's
    heap: the instance keeps the object, not a copy of its lines. *)
Record InstanceProps :=
  { vpc : string;
    vpcSubnets : Text;
    instanceType : InstanceType;
    machineImage : AmazonLinuxImage;
    instanceName : Text;
    securityGroup : string;
    userData : nat;
    role : string;
    resourceSignalTimeout : option Duration }.

(** [UserData.forLinux()]: a shebang line and the command lines added so
    far. *)
Record UserData := { shebang : string; lines : list Text }.

Definition UserData_forLinux : UserData :=
  {| shebang := "#!/bin/bash"; lines := [] |}.

Definition UserData_addCommands (u : UserData) (cmds : list Text) : UserData :=
  {| shebang := shebang u; lines := lines u ++ cmds |}.
End ec2.

Module cloudwatch.
Record Metric :=
  { namespace : string;
    metricName : string;
    dimensions : gmap string Value;
    period : Duration;
    statistic : string }.

(** [metric.with({statistic})]: a copy that differs in the statistic. *)
Definition Metric_with (m : Metric) (stat : string) : Metric :=
  {| namespace := namespace m;
     metricName := metricName m;
     dimensions := dimensions m;
     period := period m;
     statistic := stat |}.

Record YAxisProps :=
  { label : option string;
    showUnits : option bool;
    min : option Z }.

Record GraphWidget :=
  { left : list Metric;
    right : list Metric;
    width : Z;
    title : string;
    leftYAxis : option YAxisProps;
    rightYAxis : option YAxisProps }.

Record DashboardProps := { dashboardName : Text }.
End cloudwatch.

(** ** The stack under construction *)

Inductive GrantKind := GrantRead | GrantReadWrite.

Record Grant := { granted : GrantKind; on : Text }.

Inductive Construct :=
| s3_Bucket (p : s3.BucketProps)
| s3_ImportedBucket (bucketName : string)
| EmptyBucketOnDelete (bucket : string)
| BuildArtifacts (bucket : string)
| WaitCondition
| kds_Stream (p : kds.StreamProps)
| logs_LogGroup (p : logs.LogGroupProps)
| logs_LogStream (p : logs.LogStreamProps)
| iam_Role (p : iam.RoleProps) (policy : list iam.PolicyStatement) (grants : list Grant)
| kda_CfnApplicationV2 (p : kda.CfnApplicationV2Props)
| kda_CfnApplicationCloudWatchLoggingOptionV2
    (p : kda.CfnApplicationCloudWatchLoggingOptionV2Props)
| ec2_Vpc (p : ec2.VpcProps)
| ec2_SecurityGroup (vpc : string) (ingress : list ec2.IngressRule)
| ec2_Instance (p : ec2.InstanceProps)
| cloudwatch_Dashboard (p : cloudwatch.DashboardProps) (rows : list cloudwatch.GraphWidget)
| cdk_CfnOutput (value : Text).

Record StackProps :=
  { propsDescription : option string;
    propsStackName : option string;
    propsTerminationProtection : option bool }.

(** [children] keeps the constructs in declaration order, [dependsOn] the
    explicit edges (dependent, dependency) in the order they were added,
    [heap] the [UserData] objects, addressed by position. *)
Record Stack :=
  { stackId : string;
    stackProps : option StackProps;
    description : option string;
    children : list (string * Construct);
    dependsOn : list (string * string);
    heap : list ec2.UserData }.

Definition set_description (d : option string) (s : Stack) : Stack :=
  {| stackId := stackId s; stackProps := stackProps s; description := d;
     children := children s; dependsOn := dependsOn s; heap := heap s |}.

Definition set_children (c : list (string * Construct)) (s : Stack) : Stack :=
  {| stackId := stackId s; stackProps := stackProps s; description := description s;
     children := c; dependsOn := dependsOn s; heap := heap s |}.

Definition set_dependsOn (d : list (string * string)) (s : Stack) : Stack :=
  {| stackId := stackId s; stackProps := stackProps s; description := description s;
     children := children s; dependsOn := d; heap := heap s |}.

Definition set_heap (h : list ec2.UserData) (s : Stack) : Stack :=
  {| stackId := stackId s; stackProps := stackProps s; description := description s;
     children := children s; dependsOn := dependsOn s; heap := h |}.

Fixpoint lookup_child (i : string) (l : list (string * Construct)) : option Construct :=
  match l with
  | [] => None
  | (k, c) :: l' => if decide (k = i) then Some c else lookup_child i l'
  end.

Definition alter_child (f : Construct → Construct) (i : string)
    (l : list (string * Construct)) : list (string * Construct) :=
  (λ kc, if decide (kc.1 = i) then (kc.1, f kc.2) else kc) <$> l.

(** [super(scope, id, props)] *)
Definition cdk_Stack (i : string) (props : option StackProps) : Stack :=
  {| stackId := i;
     stackProps := props;
     description := props ≫= propsDescription;
     children := [];
     dependsOn := [];
     heap := [] |}.

(** *** The construction monad: the stack is threaded through the
    constructor's statements. *)

Definition Build (A : Type) : Type := Stack → A * Stack.

#[global] Instance Build_ret : MRet Build := λ A a s, (a, s).
#[global] Instance Build_bind : MBind Build :=
  λ A B f m s, let '(a, s') := m s in f a s'.

Definition modify (f : Stack → Stack) : Build () := λ s, ((), f s).
Definition gets {A} (f : Stack → A) : Build A := λ s, (f s, s).
Definition exec {A} (m : Build A) (s : Stack) : Stack := (m s).2.

(** [new C(this, id, ...)]: the construct becomes the last child of the
    stack; the handle kept in the constructor's [const] is its id. *)
Definition construct (i : string) (c : Construct) : Build string :=
  modify (λ s, set_children (children s ++ [(i, c)]) s) ;; mret i.

(** [a.addDependsOn(b)] and [a.node.addDependency(b)] *)
Definition addDependsOn (a b : string) : Build () :=
  modify (λ s, set_dependsOn (dependsOn s ++ [(a, b)]) s).

Definition addDependency (a b : string) : Build () := addDependsOn a b.

(** [UserData.forLinux()] allocates a fresh object. *)
Definition forLinux : Build nat :=
  a ← gets (λ s, length (heap s));
  modify (λ s, set_heap (heap s ++ [ec2.UserData_forLinux]) s) ;;
  mret a.

(** [userData.addCommands(...)] updates the object in place: every holder
    of the address sees the new lines. *)
Definition addCommands (a : nat) (cmds : list Text) : Build () :=
  modify (λ s, set_heap (alter (λ u, ec2.UserData_addCommands u cmds) a (heap s)) s).

(** [sg.addIngressRule(peer, connection)]: the rule is added after the
    rules the group has, unless the group already has it. *)
Definition addIngressRule (sg : string) (p : ec2.Peer) (c : ec2.Port) : Build () :=
  modify (λ s, set_children
    (alter_child (λ k, match k with
                       | ec2_SecurityGroup v rules =>
                           if decide ({| ec2.peer := p; ec2.connection := c |} ∈ rules)
                           then k
                           else ec2_SecurityGroup v
                                  (rules ++ [{| ec2.peer := p; ec2.connection := c |}])
                       | _ => k
                       end) sg (children s)) s).

(** [role.addToPolicy(statement)] *)
Definition addToPolicy (r : string) (st : iam.PolicyStatement) : Build () :=
  modify (λ s, set_children
    (alter_child (λ k, match k with
                       | iam_Role p pol gr => iam_Role p (pol ++ [st]) gr
                       | _ => k
                       end) r (children s)) s).

(** [resource.grantRead(role)], [resource.grantReadWrite(role)] *)
Definition grant (r : string) (g : GrantKind) (arn : Text) : Build () :=
  modify (λ s, set_children
    (alter_child (λ k, match k with
                       | iam_Role p pol gr =>
                           iam_Role p pol (gr ++ [{| granted := g; on := arn |}])
                       | _ => k
                       end) r (children s)) s).

(** [dashboard.addWidgets(w)]: the widget becomes the next row. *)
Definition addWidgets (d : string) (w : cloudwatch.GraphWidget) : Build () :=
  modify (λ s, set_children
    (alter_child (λ k, match k with
                       | cloudwatch_Dashboard p rows => cloudwatch_Dashboard p (rows ++ [w])
                       | _ => k
                       end) d (children s)) s).

(** *** Attributes of constructs, as the tokens they resolve to *)

Definition Aws_PARTITION : Frag := Tok (Pseudo "AWS::Partition").
Definition Aws_REGION : Frag := Tok (Pseudo "AWS::Region").
Definition Aws_ACCOUNT_ID : Frag := Tok (Pseudo "AWS::AccountId").
Definition Aws_STACK_NAME : Frag := Tok (Pseudo "AWS::StackName").

Definition bucketName (b : string) : Frag := Tok (Ref b).
Definition bucketArn (b : string) : Frag := Tok (GetAtt b "Arn").
Definition streamName (s : string) : Frag := Tok (Ref s).
Definition streamArn (s : string) : Frag := Tok (GetAtt s "Arn").
Definition logGroupName (g : string) : Frag := Tok (Ref g).
Definition logStreamName (g : string) : Frag := Tok (Ref g).
Definition roleArn (r : string) : Frag := Tok (GetAtt r "Arn").
Definition ref (r : string) : Frag := Tok (Ref r).
Definition instanceId (i : string) : Frag := Tok (Ref i).
Definition logicalId (i : string) : Frag := Tok (LogicalId i).
Definition publicSubnets (v : string) : Frag := Tok (GetAtt v "PublicSubnets").

(** The double quote character of the source's command lines. *)
Definition dq : string := String "034"%char EmptyString.

(** *** Constructs of the sibling modules *)

Record BuildArtifactsHandle :=
  { consumerBuildSuccessWaitCondition : string;
    producerBuildSuccessWaitCondition : string }.

(** Modelled from the spec: the class [BuildArtifacts] of
    ./build-artifacts is not part of the source tree.  Following the
    spec's component list (one Readiness Gate per artifact-producing
    build) it declares, next to itself, the two wait conditions the
    constructor reads from it, each a Gate resource of the topology. *)
Definition new_BuildArtifacts (i : string) (bucket : string) : Build BuildArtifactsHandle :=
  construct i (BuildArtifacts bucket) ;;
  c ← construct (i +:+ "/ConsumerBuildSuccessWaitCondition") WaitCondition;
  p ← construct (i +:+ "/ProducerBuildSuccessWaitCondition") WaitCondition;
  mret {| consumerBuildSuccessWaitCondition := c;
          producerBuildSuccessWaitCondition := p |}.

(** Modelled from the spec: the class [EmptyBucketOnDelete] of
    ./empty-bucket is not part of the source tree; only its declaration
    with the bucket it is attached to is kept. *)
Definition new_EmptyBucketOnDelete (i : string) (bucket : string) : Build string :=
  construct i (EmptyBucketOnDelete bucket).

(** *** The metrics of the dashboard *)

Definition incomingRecords (stream : string) : cloudwatch.Metric :=
  {| cloudwatch.namespace := "AWS/Kinesis";
     cloudwatch.metricName := "IncomingRecords";
     cloudwatch.dimensions := {[ "StreamName" := VText [streamName stream] ]};
     cloudwatch.period := Duration_minutes 1;
     cloudwatch.statistic := "sum" |}.

Definition incomingBytes (stream : string) : cloudwatch.Metric :=
  {| cloudwatch.namespace := "AWS/Kinesis";
     cloudwatch.metricName := "IncomingBytes";
     cloudwatch.dimensions := {[ "StreamName" := VText [streamName stream] ]};
     cloudwatch.period := Duration_minutes 1;
     cloudwatch.statistic := "sum" |}.

Definition outgoingRecords (stream : string) : cloudwatch.Metric :=
  {| cloudwatch.namespace := "AWS/Kinesis";
     cloudwatch.metricName := "GetRecords.Records";
     cloudwatch.dimensions := {[ "StreamName" := VText [streamName stream] ]};
     cloudwatch.period := Duration_minutes 1;
     cloudwatch.statistic := "sum" |}.

Definition outgoingBytes (stream : string) : cloudwatch.Metric :=
  {| cloudwatch.namespace := "AWS/Kinesis";
     cloudwatch.metricName := "GetRecords.Bytes";
     cloudwatch.dimensions := {[ "StreamName" := VText [streamName stream] ]};
     cloudwatch.period := Duration_minutes 1;
     cloudwatch.statistic := "sum" |}.

Definition millisBehindLatest (stream kdaApp : string) : cloudwatch.Metric :=
  {| cloudwatch.namespace := "AWS/KinesisAnalytics";
     cloudwatch.metricName := "millisBehindLatest";
     cloudwatch.dimensions :=
       <[ "Id" := VJoinSplit "_" "-" [streamName stream] ]>
         (<[ "Application" := VText [ref kdaApp] ]>
            {[ "Flow" := VText [Lit "Input"] ]});
     cloudwatch.period := Duration_minutes 1;
     cloudwatch.statistic := "max" |}.

Definition bytesUploaded (bucket : string) : cloudwatch.Metric :=
  {| cloudwatch.namespace := "AWS/S3";
     cloudwatch.metricName := "BytesUploaded";
     cloudwatch.dimensions :=
       <[ "BucketName" := VText [bucketName bucket] ]>
         {[ "FilterId" := VText [Lit "EntireBucket"] ]};
     cloudwatch.period := Duration_minutes 1;
     cloudwatch.statistic := "sum" |}.

Definition putRequests (bucket : string) : cloudwatch.Metric :=
  {| cloudwatch.namespace := "AWS/S3";
     cloudwatch.metricName := "PutRequests";
     cloudwatch.dimensions :=
       <[ "BucketName" := VText [bucketName bucket] ]>
         {[ "FilterId" := VText [Lit "EntireBucket"] ]};
     cloudwatch.period := Duration_minutes 1;
     cloudwatch.statistic := "sum" |}.

(** [{ min: 0 }] *)
Definition minZero : cloudwatch.YAxisProps :=
  {| cloudwatch.label := None; cloudwatch.showUnits := None;
     cloudwatch.min := Some 0 |}.

(** ** The constructor of [StreamingEtl] *)

Definition replayCopyCommand (bucket : string) : Text :=
  [ Lit "aws s3 cp --recursive --no-progress --exclude '*' --include 'amazon-kinesis-replay-*.jar' 's3://";
    bucketName bucket;
    Lit "/target/' ." ].

Definition StreamingEtl_constructor : Build () :=
  modify (set_description (Some "Creates a sample streaming ETL pipeline based on Apache Flink and Amazon Kinesis Data Analytics that reads data from a Kinesis data stream and persists it to Amazon S3 (shausma-kda-streaming-etl)")) ;;

  bucket ← construct "Bucket" (s3_Bucket
    {| s3.versioned := Some true;
       s3.removalPolicy := Some s3.DESTROY;
       s3.blockPublicAccess := Some s3.BLOCK_ALL;
       s3.metrics := [ {| s3.id := "EntireBucket" |} ];
       s3.lifecycleRules :=
         [ {| s3.abortIncompleteMultipartUploadAfter := Some (Duration_days 7) |} ] |});

  new_EmptyBucketOnDelete "EmptyBucket" bucket ;;

  construct "OutputBucket" (cdk_CfnOutput
    [ Lit "https://console.aws.amazon.com/s3/buckets/"; bucketName bucket;
      Lit "/streaming-etl-output/" ]) ;;

  artifacts ← new_BuildArtifacts "BuildArtifacts" bucket;

  stream ← construct "InputStream" (kds_Stream {| kds.shardCount := Some 16 |});

  logGroup ← construct "KdaLogGroup"
    (logs_LogGroup {| logs.retention := Some logs.ONE_WEEK |});

  logStream ← construct "KdaLogStream"
    (logs_LogStream {| logs.logGroup := logGroup |});

  let logStreamArn : Text :=
    [ Lit "arn:"; Aws_PARTITION; Lit ":logs:"; Aws_REGION; Lit ":"; Aws_ACCOUNT_ID;
      Lit ":log-group:"; logGroupName logGroup; Lit ":log-stream:";
      logStreamName logStream ] in

  kdaRole ← construct "KdaRole" (iam_Role
    {| iam.assumedBy := "kinesisanalytics.amazonaws.com";
       iam.managedPolicies := [] |} [] []);

  addToPolicy kdaRole
    {| iam.actions :=
         [ "cloudwatch:PutMetricData";
           "logs:PutLogEvents"; "logs:DescribeLogGroups"; "logs:DescribeLogStreams";
           "kinesis:DescribeStream"; "kinesis:ListShards"; "kinesis:GetShardIterator";
           "kinesis:GetRecords";
           "kinesis:PutRecord"; "kinesis:PutRecords";
           "s3:GetObject"; "s3:List*"; "s3:PutObject"; "s3:AbortMultipartUpload";
           "es:ESHttpPut"; "es:ESHttpPost"; "es:ESHttpHead" ];
       iam.resources := [ [Lit "*"] ] |} ;;

  let applicationName : Text := [ Aws_STACK_NAME ] in
  kdaApp ← construct "KdaApplication" (kda_CfnApplicationV2
    {| kda.runtimeEnvironment := "FLINK-1_8";
       kda.serviceExecutionRole := [ roleArn kdaRole ];
       kda.applicationName := applicationName;
       kda.applicationConfiguration :=
         {| kda.environmentProperties :=
              {| kda.propertyGroups :=
                   [ {| kda.propertyGroupId := "FlinkApplicationProperties";
                        kda.propertyMap :=
                          <[ "OutputBucket" :=
                               VText [ Lit "s3://"; bucketName bucket;
                                       Lit "/streaming-etl-output/" ] ]>
                            (<[ "ParquetConversion" := VBool true ]>
                               {[ "InputKinesisStream" := VText [ streamName stream ] ]})
                     |} ] |};
            kda.flinkApplicationConfiguration :=
              {| kda.monitoringConfiguration :=
                   {| kda.logLevel := "INFO";
                      kda.metricsLevel := "TASK";
                      kda.monitoringConfigurationType := "CUSTOM" |};
                 kda.parallelismConfiguration :=
                   {| kda.autoScalingEnabled := false;
                      kda.parallelism := 2;
                      kda.parallelismPerKpu := 1;
                      kda.parallelismConfigurationType := "CUSTOM" |};
                 kda.checkpointConfiguration :=
                   {| kda.checkpointConfigurationType := "CUSTOM";
                      kda.checkpointInterval := Some 60000;
                      kda.minPauseBetweenCheckpoints := Some 60000;
                      kda.checkpointingEnabled := Some true |} |};
            kda.applicationSnapshotConfiguration :=
              {| kda.snapshotsEnabled := false |};
            kda.applicationCodeConfiguration :=
              {| kda.codeContent :=
                   {| kda.s3ContentLocation :=
                        {| kda.bucketArn := [ bucketArn bucket ];
                           kda.fileKey :=
                             "target/amazon-kinesis-analytics-streaming-etl-1.0-SNAPSHOT.jar"
                        |} |};
                 kda.codeContentType := "ZIPFILE" |} |} |});

  construct "KdsFlinkProducerLogging" (kda_CfnApplicationCloudWatchLoggingOptionV2
    {| kda.loggingApplicationName := [ ref kdaApp ];
       kda.cloudWatchLoggingOption := {| kda.logStreamArn := logStreamArn |} |}) ;;

  addDependsOn kdaApp (consumerBuildSuccessWaitCondition artifacts) ;;

  vpc ← construct "VPC" (ec2_Vpc
    {| ec2.subnetConfiguration :=
         [ {| ec2.cidrMask := 24; ec2.name := "public";
              ec2.subnetType := ec2.PUBLIC |} ] |});

  sg ← construct "SecurityGroup" (ec2_SecurityGroup vpc []);

  addIngressRule sg ec2.anyIpv4 (ec2.tcp 22) ;;
  addIngressRule sg (ec2.securityGroupPeer sg) ec2.allTraffic ;;

  producerRole ← construct "ReplayRole" (iam_Role
    {| iam.assumedBy := "ec2.amazonaws.com";
       iam.managedPolicies := [ "AmazonSSMManagedInstanceCore" ] |} [] []);

  grant producerRole GrantReadWrite [ streamArn stream ] ;;
  addToPolicy producerRole
    {| iam.actions := [ "kinesis:ListShards" ];
       iam.resources := [ [ streamArn stream ] ] |} ;;

  grant producerRole GrantRead [ bucketArn bucket ] ;;
  bigData ← construct "BigDataBucket" (s3_ImportedBucket "aws-bigdata-blog");
  grant producerRole GrantRead
    [ Lit "arn:"; Aws_PARTITION; Lit ":s3:::aws-bigdata-blog" ] ;;

  addToPolicy producerRole
    {| iam.actions := [ "cloudwatch:PutMetricData" ];
       iam.resources := [ [Lit "*"] ] |} ;;

  addToPolicy producerRole
    {| iam.actions := [ "kinesisanalytics:StartApplication" ];
       iam.resources :=
         [ [ Lit "arn:"; Aws_PARTITION; Lit ":kinesisanalytics:"; Aws_REGION; Lit ":";
             Aws_ACCOUNT_ID; Lit ":application/" ] ++ applicationName ] |} ;;

  userData ← forLinux;
  addCommands userData
    [ [ Lit "yum install -y tmux jq java-11-amazon-corretto-headless" ];
      [ Lit "aws --region "; Aws_REGION;
        Lit " kinesisanalyticsv2 start-application --application-name "; ref kdaApp;
        Lit (" --run-configuration '{ " +:+ dq +:+ "ApplicationRestoreConfiguration" +:+ dq
             +:+ ": { " +:+ dq +:+ "ApplicationRestoreType" +:+ dq +:+ ": " +:+ dq
             +:+ "SKIP_RESTORE_FROM_SNAPSHOT" +:+ dq +:+ " } }'") ];
      [ Lit ("su ssm-user -l -c " +:+ dq) ] ++ replayCopyCommand bucket ++ [ Lit dq ] ] ;;

  instance ← construct "ProducerInstance" (ec2_Instance
    {| ec2.vpc := vpc;
       ec2.vpcSubnets := [ publicSubnets vpc ];
       ec2.instanceType := ec2.InstanceType_of ec2.C5N ec2.LARGE;
       ec2.machineImage := {| ec2.generation := ec2.AMAZON_LINUX_2 |};
       ec2.instanceName := [ Aws_STACK_NAME; Lit "/ProducerInstance" ];
       ec2.securityGroup := sg;
       ec2.userData := userData;
       ec2.role := producerRole;
       ec2.resourceSignalTimeout := Some (Duration_minutes 5) |});

  addCommands userData
    [ [ Lit "/opt/aws/bin/cfn-signal -e "; ExitStatus; Lit " --stack "; Aws_STACK_NAME;
        Lit " --resource "; logicalId instance; Lit " --region "; Aws_REGION ] ] ;;
  addDependency instance (producerBuildSuccessWaitCondition artifacts) ;;

  construct "ReplayCommand" (cdk_CfnOutput
    [ Lit "java -jar amazon-kinesis-replay-1.0-SNAPSHOT.jar -streamName ";
      streamName stream;
      Lit " -noWatermark -objectPrefix artifacts/kinesis-analytics-taxi-consumer/taxi-trips-partitioned.json.lz4/dropoff_year=2018/ -speedup 3600" ]) ;;
  construct "ConnectWithSessionManager" (cdk_CfnOutput
    [ Lit "https://console.aws.amazon.com/systems-manager/session-manager/";
      instanceId instance ]) ;;

  dashboard ← construct "Dashboard" (cloudwatch_Dashboard
    {| cloudwatch.dashboardName := [ Aws_STACK_NAME ] |} []);

  addWidgets dashboard
    {| cloudwatch.left := [ incomingRecords stream ];
       cloudwatch.right := [ incomingBytes stream ];
       cloudwatch.width := 24;
       cloudwatch.title := "Kinesis data stream (incoming)";
       cloudwatch.leftYAxis := Some minZero;
       cloudwatch.rightYAxis := Some minZero |} ;;

  addWidgets dashboard
    {| cloudwatch.left := [ outgoingRecords stream ];
       cloudwatch.right := [ outgoingBytes stream ];
       cloudwatch.width := 24;
       cloudwatch.title := "Kinesis data stream (outgoing)";
       cloudwatch.leftYAxis := Some minZero;
       cloudwatch.rightYAxis := Some minZero |} ;;

  addWidgets dashboard
    {| cloudwatch.left :=
         [ millisBehindLatest stream kdaApp;
           cloudwatch.Metric_with (millisBehindLatest stream kdaApp) "avg" ];
       cloudwatch.right := [];
       cloudwatch.width := 24;
       cloudwatch.title := "Flink consumer lag";
       cloudwatch.leftYAxis :=
         Some {| cloudwatch.label := Some "milliseconds";
                 cloudwatch.showUnits := Some false;
                 cloudwatch.min := Some 0 |};
       cloudwatch.rightYAxis := None |} ;;

  addWidgets dashboard
    {| cloudwatch.left := [ putRequests bucket ];
       cloudwatch.right := [ bytesUploaded bucket ];
       cloudwatch.width := 24;
       cloudwatch.title := "Amazon S3 (incoming)";
       cloudwatch.leftYAxis := Some minZero;
       cloudwatch.rightYAxis := Some minZero |} ;;

  construct "CloudwatchDashboard" (cdk_CfnOutput
    [ Lit "https://console.aws.amazon.com/cloudwatch/home#dashboards:name=";
      Aws_STACK_NAME ]) ;;
  construct "CloudwatchLogsInsights" (cdk_CfnOutput
    [ Lit "https://console.aws.amazon.com/cloudwatch/home#logs-insights:queryDetail=~(end~0~source~'";
      logGroupName logGroup;
      Lit "~start~-3600~timeType~'RELATIVE~unit~'seconds)" ]) ;;
  mret ().

(** [new StreamingEtl(scope, id, props)] *)
Definition StreamingEtl (i : string) (props : option StackProps) : Stack :=
  exec StreamingEtl_constructor (cdk_Stack i props).

(** ** Reading the finished stack *)

Definition child (s : Stack) (i : string) : option Construct :=
  lookup_child i (children s).

Definition bucketProps (s : Stack) (i : string) : option s3.BucketProps :=
  match child s i with Some (s3_Bucket p) => Some p | _ => None end.

Definition streamProps (s : Stack) (i : string) : option kds.StreamProps :=
  match child s i with Some (kds_Stream p) => Some p | _ => None end.

Definition applicationProps (s : Stack) (i : string) : option kda.CfnApplicationV2Props :=
  match child s i with Some (kda_CfnApplicationV2 p) => Some p | _ => None end.

Definition flinkConfiguration (s : Stack) (i : string)
    : option kda.FlinkApplicationConfiguration :=
  (λ p, kda.flinkApplicationConfiguration (kda.applicationConfiguration p))
    <$> applicationProps s i.

Definition ingressRules (s : Stack) (i : string) : option (list ec2.IngressRule) :=
  match child s i with Some (ec2_SecurityGroup _ rules) => Some rules | _ => None end.

Definition instanceProps (s : Stack) (i : string) : option ec2.InstanceProps :=
  match child s i with Some (ec2_Instance p) => Some p | _ => None end.

Definition dashboardRows (s : Stack) (i : string) : option (list cloudwatch.GraphWidget) :=
  match child s i with Some (cloudwatch_Dashboard _ rows) => Some rows | _ => None end.

(** The user data of an instance is read from the heap when the stack is
    synthesized, after the constructor has run to its end. *)
Definition instanceUserData (s : Stack) (i : string) : option ec2.UserData :=
  p ← instanceProps s i; heap s !! ec2.userData p.

(** *** The configuration surface of the deployed topology *)

Record Settings :=
  { shardCount : option Z;
    checkpointIntervalMs : option Z;
    minimumCheckpointPauseMs : option Z;
    parallelism : Z;
    monitoringVerbosity : string;
    metricsGranularity : string;
    snapshotOnUpdate : bool }.

Definition settings (s : Stack) : option Settings :=
  st ← streamProps s "InputStream";
  app ← applicationProps s "KdaApplication";
  let cfg := kda.applicationConfiguration app in
  let flink := kda.flinkApplicationConfiguration cfg in
  mret {| shardCount := kds.shardCount st;
          checkpointIntervalMs :=
            kda.checkpointInterval (kda.checkpointConfiguration flink);
          minimumCheckpointPauseMs :=
            kda.minPauseBetweenCheckpoints (kda.checkpointConfiguration flink);
          parallelism := kda.parallelism (kda.parallelismConfiguration flink);
          monitoringVerbosity := kda.logLevel (kda.monitoringConfiguration flink);
          metricsGranularity := kda.metricsLevel (kda.monitoringConfiguration flink);
          snapshotOnUpdate :=
            kda.snapshotsEnabled (kda.applicationSnapshotConfiguration cfg) |}.

(** *** Who may connect: the meaning of an ingress rule *)

(** An IPv4 address is a 32-bit number; a source is an address or a
    member of a security group. *)
Inductive Source :=
| fromAddress (a : Z)
| fromGroup (sg : string).

Inductive Protocol := TCP | UDP | ICMP.

Definition in_cidr (base mask a : Z) : bool :=
  bool_decide (Z.shiftr a (32 - mask) = Z.shiftr base (32 - mask)).

(** [anyIpv4] is the block 0.0.0.0/0. *)
Definition peer_matches (p : ec2.Peer) (src : Source) : bool :=
  match p, src with
  | ec2.anyIpv4, fromAddress a => in_cidr 0 0 a
  | ec2.ipv4 base mask, fromAddress a => in_cidr base mask a
  | ec2.securityGroupPeer g, fromGroup g' => bool_decide (g = g')
  | _, _ => false
  end.

Definition port_matches (c : ec2.Port) (proto : Protocol) (port : Z) : bool :=
  match c, proto with
  | ec2.tcp p, TCP => bool_decide (p = port)
  | ec2.tcpRange lo hi, TCP => bool_decide (lo ≤ port ≤ hi)
  | ec2.udp p, UDP => bool_decide (p = port)
  | ec2.allTcp, TCP => true
  | ec2.allTraffic, _ => true
  | _, _ => false
  end.

Definition rule_admits (r : ec2.IngressRule) (src : Source) (proto : Protocol)
    (port : Z) : bool :=
  peer_matches (ec2.peer r) src && port_matches (ec2.connection r) proto port.

(** Inbound traffic is admitted when some rule of the group admits it. *)
Definition admits (rules : list ec2.IngressRule) (src : Source) (proto : Protocol)
    (port : Z) : bool :=
  existsb (λ r, rule_admits r src proto port) rules.

(** *** Running the bootstrap script *)

(** One executed command line: the line, the value of [$?] when it
    started, and its own exit status. *)
Record Executed := { command : Text; statusBefore : Z; exitStatus : Z }.

(** The lines of a bash script run one after the other; a failing line
    stops the script only under [-e]. *)
Fixpoint run_lines (errexit : bool) (outcome : Text → Z) (last : Z)
    (script : list Text) : list Executed :=
  match script with
  | [] => []
  | c :: rest =>
      let e := outcome c in
      {| command := c; statusBefore := last; exitStatus := e |}
        :: (if errexit && negb (bool_decide (e = 0)) then []
            else run_lines errexit outcome e rest)
  end.

Definition errexit (u : ec2.UserData) : bool :=
  bool_decide (ec2.shebang u = "#!/bin/bash -e").

Definition run_userData (outcome : Text → Z) (u : ec2.UserData) : list Executed :=
  run_lines (errexit u) outcome 0 (ec2.lines u).

(** The steps of the Producer/Replay Instance bootstrap. *)
Inductive BootstrapStep :=
| InstallDependencies
| StartApplication
| CopyArtifact
| SignalCompletion.

#[global] Instance BootstrapStep_eq_dec : EqDecision BootstrapStep.
Proof. solve_decision. Defined.

Fixpoint mentions (pat : string) (t : Text) : bool :=
  match t with
  | [] => false
  | Lit s :: t' =>
      match String.index 0 pat s with
      | Some _ => true
      | None => mentions pat t'
      end
  | _ :: t' => mentions pat t'
  end.

Definition starts_with (pat : string) (t : Text) : bool :=
  match t with
  | Lit s :: _ => String.prefix pat s
  | _ => false
  end.

(** Which step a command line carries out, read off the program it calls. *)
Definition classify (t : Text) : option BootstrapStep :=
  if starts_with "yum install " t then Some InstallDependencies
  else if starts_with "aws " t && mentions " kinesisanalyticsv2 start-application " t
  then Some StartApplication
  else if starts_with "su ssm-user " t && mentions "aws s3 cp " t
  then Some CopyArtifact
  else if starts_with "/opt/aws/bin/cfn-signal " t then Some SignalCompletion
  else None.

(** The status [cfn-signal -e] passes on: with [$?] as its argument, the
    exit status of the line before it. *)
Definition signalled (e : Executed) : option Z :=
  match command e with
  | Lit "/opt/aws/bin/cfn-signal -e " :: ExitStatus :: _ => Some (statusBefore e)
  | _ => None
  end.

(** The completion status the instance reports to the provisioning
    engine: that of the first [cfn-signal] line that ran. *)
Definition reported (trace : list Executed) : option Z :=
  list_find (λ e, is_Some (signalled e)) trace ≫= (λ ie, signalled ie.2).

(** The exit status of the line that carried out a step. *)
Definition statusOfStep (st : BootstrapStep) (trace : list Executed) : option Z :=
  exitStatus <$> (snd <$> list_find (λ e, classify (command e) = Some st) trace).

(** ** The dependency graph of the stack *)

Inductive Kind :=
| KStore | KLog | KProcessingApp | KInstance | KGate | KDashboard | KSupport.

#[global] Instance Kind_eq_dec : EqDecision Kind.
Proof. solve_decision. Defined.

(** Outputs, imported buckets and the [BuildArtifacts] scope are not
    resources that get activated. *)
Definition kindOf (c : Construct) : option Kind :=
  match c with
  | s3_Bucket _ => Some KStore
  | kds_Stream _ => Some KLog
  | kda_CfnApplicationV2 _ => Some KProcessingApp
  | ec2_Instance _ => Some KInstance
  | WaitCondition => Some KGate
  | cloudwatch_Dashboard _ _ => Some KDashboard
  | EmptyBucketOnDelete _ | logs_LogGroup _ | logs_LogStream _ | iam_Role _ _ _
  | kda_CfnApplicationCloudWatchLoggingOptionV2 _ | ec2_Vpc _
  | ec2_SecurityGroup _ _ => Some KSupport
  | s3_ImportedBucket _ | BuildArtifacts _ | cdk_CfnOutput _ => None
  end.

Definition metric_refs (m : cloudwatch.Metric) : list string :=
  (map_to_list (cloudwatch.dimensions m)).*2 ≫= value_refs.

Definition widget_refs (w : cloudwatch.GraphWidget) : list string :=
  (cloudwatch.left w ≫= metric_refs) ++ (cloudwatch.right w ≫= metric_refs).

Definition peer_refs (p : ec2.Peer) : list string :=
  match p with
  | ec2.securityGroupPeer g => [g]
  | _ => []
  end.

(** The constructs whose [Ref] or attribute a construct's properties
    mention.  The user data of an instance is read through the heap. *)
Definition references (h : list ec2.UserData) (c : Construct) : list string :=
  match c with
  | s3_Bucket _ | s3_ImportedBucket _ | WaitCondition | kds_Stream _
  | logs_LogGroup _ | ec2_Vpc _ => []
  | EmptyBucketOnDelete b => [b]
  | BuildArtifacts b => [b]
  | logs_LogStream p => [logs.logGroup p]
  | iam_Role _ pol gr =>
      (pol ≫= (λ st, iam.resources st ≫= text_refs)) ++ (gr ≫= (λ g, text_refs (on g)))
  | kda_CfnApplicationV2 p =>
      let cfg := kda.applicationConfiguration p in
      text_refs (kda.serviceExecutionRole p)
      ++ text_refs (kda.applicationName p)
      ++ (kda.propertyGroups (kda.environmentProperties cfg)
            ≫= (λ g, (map_to_list (kda.propertyMap g)).*2 ≫= value_refs))
      ++ text_refs (kda.bucketArn (kda.s3ContentLocation
                      (kda.codeContent (kda.applicationCodeConfiguration cfg))))
  | kda_CfnApplicationCloudWatchLoggingOptionV2 p =>
      text_refs (kda.loggingApplicationName p)
      ++ text_refs (kda.logStreamArn (kda.cloudWatchLoggingOption p))
  | ec2_SecurityGroup v rules => v :: (rules ≫= (λ r, peer_refs (ec2.peer r)))
  | ec2_Instance p =>
      [ec2.vpc p; ec2.securityGroup p; ec2.role p]
      ++ text_refs (ec2.vpcSubnets p)
      ++ text_refs (ec2.instanceName p)
      ++ (default [] (ec2.lines <$> h !! ec2.userData p) ≫= text_refs)
  | cloudwatch_Dashboard p rows =>
      text_refs (cloudwatch.dashboardName p) ++ (rows ≫= widget_refs)
  | cdk_CfnOutput v => text_refs v
  end.

Definition explicitDependencies (s : Stack) (i : string) : list string :=
  (filter (λ e, e.1 = i) (dependsOn s)).*2.

(** What the properties of a resource refer to in the synthesized
    template.  A rule of a security group that names the group itself is
    emitted as an ingress resource of its own and is no reference of the
    group to itself; every other reference stays, also one of a resource
    to itself. *)
Definition templateReferences (s : Stack) (i : string) (c : Construct) : list string :=
  match c with
  | ec2_SecurityGroup v rules =>
      v :: filter (λ d, d ≠ i) (rules ≫= (λ r, peer_refs (ec2.peer r)))
  | _ => references (heap s) c
  end.

(** What must be ready before a resource is activated: what it was
    declared to depend on and what its properties refer to. *)
Definition dependencies (s : Stack) (i : string) (c : Construct) : list string :=
  remove_dups (explicitDependencies s i ++ templateReferences s i c).

Record Node := { kind : Kind; needs : list string }.

Definition nodes (s : Stack) : list (string * Node) :=
  omap (λ ic, k ← kindOf ic.2;
              Some (ic.1, {| kind := k; needs := dependencies s ic.1 ic.2 |}))
       (children s).

Definition topology (s : Stack) : gmap string Node := list_to_map (nodes s).

(** ** Readiness gates

    Modelled from the spec: the states, outcomes and operations of a
    Readiness Gate follow the spec's data model; the wait conditions
    themselves are declared in ./build-artifacts, which is not part of
    the source tree. *)

Inductive Result (E A : Type) :=
| Ok (a : A)
| Err (e : E).
Arguments Ok {E A} a.
Arguments Err {E A} e.

Inductive GateState := WAITING | SIGNALED_SUCCESS | SIGNALED_FAILURE | TIMED_OUT.

#[global] Instance GateState_eq_dec : EqDecision GateState.
Proof. solve_decision. Defined.

Inductive Outcome := Success | Failure | TimedOut.

Inductive SignalError := AlreadySignaled.

Record Gate :=
  { gateName : string;
    deadline : Z;
    gateState : GateState;
    gateReason : string }.

Definition is_terminal (st : GateState) : bool :=
  match st with
  | WAITING => false
  | _ => true
  end.

(** The state a signal with the given outcome leads to. *)
Definition signalled_state (success : bool) : GateState :=
  if success then SIGNALED_SUCCESS else SIGNALED_FAILURE.

(** Modelled from the spec: the wait conditions are declared in
    ./build-artifacts and signalled by the build, neither of which is
    part of the source tree.  [create(name, timeout)] gives a Gate that
    waits. *)
Definition create (name : string) (timeout : Z) : Gate :=
  {| gateName := name; deadline := timeout; gateState := WAITING;
     gateReason := EmptyString |}.

(** Modelled from the spec: [signal(handle, success, reason)] of the
    absent gate implementation.  A waiting Gate takes the outcome and the
    reason of the signal; a Gate in a terminal state rejects the signal
    with [AlreadySignaled] and stays as it is. *)
Definition signal (g : Gate) (success : bool) (reason : string)
    : Result SignalError () * Gate :=
  if is_terminal (gateState g) then (Err AlreadySignaled, g)
  else (Ok (),
        {| gateName := gateName g; deadline := deadline g;
           gateState := signalled_state success; gateReason := reason |}).

(** Modelled from the spec: the deadline of the absent gate
    implementation passing.  A waiting Gate times out; a Gate in a
    terminal state stays as it is. *)
Definition expire (g : Gate) : Gate :=
  if is_terminal (gateState g) then g
  else {| gateName := gateName g; deadline := deadline g;
          gateState := TIMED_OUT; gateReason := gateReason g |}.

(** Modelled from the spec: [await(handle)], defined once the Gate of
    the absent gate implementation is in a terminal state. *)
Definition await (g : Gate) : option Outcome :=
  match gateState g with
  | WAITING => None
  | SIGNALED_SUCCESS => Some Success
  | SIGNALED_FAILURE => Some Failure
  | TIMED_OUT => Some TimedOut
  end.

(** ** The checkpoint policy of an application *)




(** ** Deployment: activation of a topology by the provisioning engine *)

Inductive Status := Pending | InProgress | Ready | Failed | Blocked.

#[global] Instance Status_eq_dec : EqDecision Status.
Proof. solve_decision. Defined.

(** Modelled from the spec: the per-resource status the absent
    provisioning engine reports, and the state of one deployment attempt.
    A resource without an entry in [status] is still [Pending]. *)
Record Deployment :=
  { status : gmap string Status;
    gates : gmap string Gate }.

Inductive Event :=
| Begin (r : string)
| Finish (r : string)
| Abort (r : string)
| Signal (g : string) (success : bool) (reason : string)
| Expire (g : string)
| Cancel (r : string).

Definition statusOf (d : Deployment) (r : string) : Status :=
  default Pending (status d !! r).

Definition gateStateOf (d : Deployment) (g : string) : option GateState :=
  gateState <$> gates d !! g.

(** A resource has begun activation once it has left [Pending] other
    than by being blocked. *)
Definition started (d : Deployment) (r : string) : bool :=
  match statusOf d r with
  | InProgress | Ready | Failed => true
  | Pending | Blocked => false
  end.

Section Engine.

Variable topo : gmap string Node.
Variable timeoutOf : string → Z.

(** Modelled from the spec: the provisioning engine is an external
    collaborator and no part of the source tree.  At the start of an
    attempt nothing has been activated and every Gate waits. *)
Definition init : Deployment :=
  {| status := ∅;
     gates := map_imap (λ i n, match kind n with
                                | KGate => Some (create i (timeoutOf i))
                                | _ => None
                                end) topo |}.

(** Modelled from the spec: the dependency rule of the absent
    provisioning engine.  A dependency on a Gate is met by
    SIGNALED_SUCCESS, a dependency on another resource by that resource
    being Ready. *)
Definition satisfied (d : Deployment) (dep : string) : bool :=
  match kind <$> topo !! dep with
  | Some KGate => bool_decide (gateStateOf d dep = Some SIGNALED_SUCCESS)
  | Some _ => bool_decide (statusOf d dep = Ready)
  | None => false
  end.

(** Modelled from the spec: the cancellation rule of the absent
    provisioning engine.  A dependency that can no longer be met in this
    attempt: a Gate that failed or timed out, a resource that failed or
    is blocked. *)
Definition broken (d : Deployment) (dep : string) : bool :=
  match kind <$> topo !! dep with
  | Some KGate =>
      bool_decide (gateStateOf d dep = Some SIGNALED_FAILURE)
      || bool_decide (gateStateOf d dep = Some TIMED_OUT)
  | Some _ =>
      bool_decide (statusOf d dep = Failed) || bool_decide (statusOf d dep = Blocked)
  | None => false
  end.

Definition set_status (r : string) (st : Status) (d : Deployment) : Deployment :=
  {| status := <[r := st]> (status d); gates := gates d |}.

Definition set_gate (g : string) (v : Gate) (d : Deployment) : Deployment :=
  {| status := status d; gates := <[g := v]> (gates d) |}.

(** Modelled from the spec: one step of the absent provisioning engine.
    A resource begins activation only when it is Pending and every one
    of its dependencies is met; it is cancelled (Blocked) when it is
    Pending and one of them is broken; a resource in progress becomes
    Ready or Failed; a Gate is signalled or times out.  [None]: the
    event cannot happen in this state. *)
Definition step (d : Deployment) (e : Event) : option Deployment :=
  match e with
  | Begin r =>
      n ← topo !! r;
      if bool_decide (kind n ≠ KGate) && bool_decide (statusOf d r = Pending)
         && forallb (satisfied d) (needs n)
      then Some (set_status r InProgress d) else None
  | Finish r =>
      if bool_decide (statusOf d r = InProgress)
      then Some (set_status r Ready d) else None
  | Abort r =>
      if bool_decide (statusOf d r = InProgress)
      then Some (set_status r Failed d) else None
  | Signal g success reason =>
      v ← gates d !! g;
      Some (set_gate g (signal v success reason).2 d)
  | Expire g =>
      v ← gates d !! g;
      Some (set_gate g (expire v) d)
  | Cancel r =>
      n ← topo !! r;
      if bool_decide (kind n ≠ KGate) && bool_decide (statusOf d r = Pending)
         && existsb (broken d) (needs n)
      then Some (set_status r Blocked d) else None
  end.

Fixpoint run (d : Deployment) (es : list Event) : option Deployment :=
  match es with
  | [] => Some d
  | e :: es' => d' ← step d e; run d' es'
  end.

End Engine.

(** The deployment attempts of a stack: the states the engine reaches on
    its topology from the initial state. *)
Definition deployment (s : Stack) (timeoutOf : string → Z) (es : list Event)
    : option Deployment :=
  run (topology s) (init (topology s) timeoutOf) es.

(** An attempt that brings every resource of the stack to Ready: both
    builds signal success, then the resources are activated in
    declaration order. *)
Definition successfulDeployment : list Event :=
  [ Signal "BuildArtifacts/ConsumerBuildSuccessWaitCondition" true "build succeeded";
    Signal "BuildArtifacts/ProducerBuildSuccessWaitCondition" true "build succeeded";
    Begin "Bucket"; Finish "Bucket";
    Begin "EmptyBucket"; Finish "EmptyBucket";
    Begin "InputStream"; Finish "InputStream";
    Begin "KdaLogGroup"; Finish "KdaLogGroup";
    Begin "KdaLogStream"; Finish "KdaLogStream";
    Begin "KdaRole"; Finish "KdaRole";
    Begin "KdaApplication"; Finish "KdaApplication";
    Begin "KdsFlinkProducerLogging"; Finish "KdsFlinkProducerLogging";
    Begin "VPC"; Finish "VPC";
    Begin "SecurityGroup"; Finish "SecurityGroup";
    Begin "ReplayRole"; Finish "ReplayRole";
    Begin "ProducerInstance"; Finish "ProducerInstance";
    Begin "Dashboard"; Finish "Dashboard" ].

(** ** Reading the dashboard *)

Inductive WidgetRole :=
| InboundThroughput
| OutboundThroughput
| ConsumerLag
| StorageSinkThroughput.

(** What a widget shows, read off the metric that leads its left axis. *)
Definition widgetRole (w : cloudwatch.GraphWidget) : option WidgetRole :=
  match cloudwatch.left w with
  | m :: _ =>
      let ns := cloudwatch.namespace m in
      let n := cloudwatch.metricName m in
      if bool_decide (ns = "AWS/Kinesis") && String.prefix "Incoming" n
      then Some InboundThroughput
      else if bool_decide (ns = "AWS/Kinesis") && String.prefix "GetRecords." n
      then Some OutboundThroughput
      else if bool_decide (ns = "AWS/KinesisAnalytics")
              && bool_decide (n = "millisBehindLatest")
      then Some ConsumerLag
      else if bool_decide (ns = "AWS/S3") then Some StorageSinkThroughput
      else None
  | [] => None
  end.

(** The lower bound an axis was given, if any. *)
Definition lowerBound (a : option cloudwatch.YAxisProps) : option Z :=
  a ≫= cloudwatch.min.

(** A widget that pairs one metric on the left axis with one on the
    right, each axis with a lower bound that is not negative. *)
Definition pairedFromZero (w : cloudwatch.GraphWidget) : Prop :=
  ∃ l r lo lo',
    cloudwatch.left w = [l] ∧ cloudwatch.right w = [r]
    ∧ lowerBound (cloudwatch.leftYAxis w) = Some lo ∧ 0 ≤ lo
    ∧ lowerBound (cloudwatch.rightYAxis w) = Some lo' ∧ 0 ≤ lo'.

(** Two queries of one metric: everything but the statistic agrees. *)
Definition sameMetric (m m' : cloudwatch.Metric) : Prop :=
  cloudwatch.namespace m = cloudwatch.namespace m'
  ∧ cloudwatch.metricName m = cloudwatch.metricName m'
  ∧ cloudwatch.dimensions m = cloudwatch.dimensions m'
  ∧ cloudwatch.period m = cloudwatch.period m'.

(** ** Overriding a setting *)

(** A reading of the stack can be overridden per deployment when some
    deployment input, the stack's id or its props, changes it. *)
Definition overridable {A : Type} (reading : Stack → A) : Prop :=
  ∃ i i' p p', reading (StreamingEtl i p) ≠ reading (StreamingEtl i' p').

(** Every resource that has begun activation has all its dependencies
    met. *)
Definition dependenciesMet (topo : gmap string Node) (d : Deployment) : Prop :=
  ∀ r n dep,
    topo !! r = Some n → started d r = true → dep ∈ needs n →
    satisfied topo d dep = true.

(** ** Well-formedness of a stack *)

(** A name that stands for a resource of the stack. *)
Definition isResource (s : Stack) (r : string) : bool :=
  match child s r ≫= kindOf with
  | Some _ => true
  | None => false
  end.

(** Everything a construct names: what its properties refer to and what
    it was declared to depend on. *)
Definition mentioned (s : Stack) (i : string) (c : Construct) : list string :=
  references (heap s) c ++ explicitDependencies s i.

(** The pairs (construct, name) where the name is no resource of the
    stack. *)
Definition dangling (s : Stack) : list (string * string) :=
  children s ≫= λ ic,
    (λ r, (ic.1, r)) <$> filter (λ r, isResource s r = false) (mentioned s ic.1 ic.2).

(** The edges of the dependency graph: (dependent, dependency). *)
Definition edges (s : Stack) : list (string * string) :=
  nodes s ≫= λ an, (λ b, (an.1, b)) <$> needs an.2.

Inductive dependsTransitively (s : Stack) : string → string → Prop :=
| depends_edge (a b : string) :
    (a, b) ∈ edges s → dependsTransitively s a b
| depends_path (a b c : string) :
    dependsTransitively s a b → dependsTransitively s b c → dependsTransitively s a c.

(** The position at which a name is declared, the length of the list
    for a name that is not declared. *)
Fixpoint declarationIndex (r : string) (l : list string) : nat :=
  match l with
  | [] => 0%nat
  | k :: l' => if decide (k = r) then 0%nat else S (declarationIndex r l')
  end.

Definition rank (s : Stack) (r : string) : nat :=
  declarationIndex r (children s).*1.

(** ** Reading more of the finished stack *)

Definition output (s : Stack) (i : string) : option Text :=
  match child s i with Some (cdk_CfnOutput v) => Some v | _ => None end.

Definition rolePolicy (s : Stack) (r : string) : option (list iam.PolicyStatement) :=
  match child s r with Some (iam_Role _ pol _) => Some pol | _ => None end.

Definition roleGrants (s : Stack) (r : string) : option (list Grant) :=
  match child s r with Some (iam_Role _ _ gr) => Some gr | _ => None end.

(** A property of the application's runtime environment. *)
Definition property (s : Stack) (app group key : string) : option Value :=
  p ← applicationProps s app;
  g ← list_find (λ g, kda.propertyGroupId g = group)
        (kda.propertyGroups
           (kda.environmentProperties (kda.applicationConfiguration p)));
  kda.propertyMap g.2 !! key.

Definition codeLocation (s : Stack) (app : string) : option kda.S3ContentLocation :=
  (λ p, kda.s3ContentLocation
          (kda.codeContent
             (kda.applicationCodeConfiguration (kda.applicationConfiguration p))))
    <$> applicationProps s app.

(** The bucket and the key prefix of a location [s3://<bucket>/<prefix>]. *)
Definition s3Location (t : Text) : option (string * string) :=
  match t with
  | [Lit "s3://"; Tok (Ref b); Lit (String "/"%char prefix)] => Some (b, prefix)
  | _ => None
  end.

(** The bucket an ARN attribute belongs to. *)
Definition arnOf (t : Text) : option string :=
  match t with
  | [Tok (GetAtt b "Arn")] => Some b
  | _ => None
  end.

Definition loggingOption (s : Stack) (i : string)
    : option kda.CfnApplicationCloudWatchLoggingOptionV2Props :=
  match child s i with
  | Some (kda_CfnApplicationCloudWatchLoggingOptionV2 p) => Some p
  | _ => None
  end.

Definition logStreamProps (s : Stack) (i : string) : option logs.LogStreamProps :=
  match child s i with Some (logs_LogStream p) => Some p | _ => None end.

Definition dashboardProps (s : Stack) (i : string) : option cloudwatch.DashboardProps :=
  match child s i with Some (cloudwatch_Dashboard p _) => Some p | _ => None end.

Definition widgetMetrics (w : cloudwatch.GraphWidget) : list cloudwatch.Metric :=
  cloudwatch.left w ++ cloudwatch.right w.

Definition dashboardMetrics (s : Stack) (d : string) : list cloudwatch.Metric :=
  default [] (dashboardRows s d) ≫= widgetMetrics.

(** * Properties of the stack *)

(** The stack the constructor builds does not depend on the deployment
    inputs beyond recording them. *)
Lemma StreamingEtl_children (i : string) (p : option StackProps) :
  children (StreamingEtl i p) = children (StreamingEtl EmptyString None).
Proof. vm_compute. reflexivity. Qed.

Lemma StreamingEtl_heap (i : string) (p : option StackProps) :
  heap (StreamingEtl i p) = heap (StreamingEtl EmptyString None).
Proof. vm_compute. reflexivity. Qed.

Lemma StreamingEtl_dependsOn (i : string) (p : option StackProps) :
  dependsOn (StreamingEtl i p) = dependsOn (StreamingEtl EmptyString None).
Proof. vm_compute. reflexivity. Qed.

Lemma StreamingEtl_settings (i : string) (p : option StackProps) :
  settings (StreamingEtl i p) = settings (StreamingEtl EmptyString None).
Proof. vm_compute. reflexivity. Qed.

(** ** The artifact store *)

(** C8. The bucket is declared with the removal policy DESTROY, which
    allows destructive teardown and is not the policy a bucket gets by
    default; its only lifecycle rule aborts incomplete multipart uploads
    after 7 days; it is versioned; the construct that empties it on
    deletion is attached to it. *)
Theorem artifact_store_configuration (i : string) (p : option StackProps) :
  s3.removalPolicy <$> bucketProps (StreamingEtl i p) "Bucket" = Some (Some s3.DESTROY)
  ∧ s3.allowsDestructiveTeardown <$> bucketProps (StreamingEtl i p) "Bucket" = Some true
  ∧ s3.deletionPolicy <$> bucketProps (StreamingEtl i p) "Bucket"
    ≠ Some s3.defaultRemovalPolicy
  ∧ (λ b, s3.abortIncompleteMultipartUploadAfter <$> s3.lifecycleRules b)
      <$> bucketProps (StreamingEtl i p) "Bucket"
    = Some [Some (Duration_days 7)]
  ∧ toDays (Duration_days 7) = 7
  ∧ s3.isVersioned <$> bucketProps (StreamingEtl i p) "Bucket" = Some true
  ∧ child (StreamingEtl i p) "EmptyBucket" = Some (EmptyBucketOnDelete "Bucket").
Proof.
  repeat split; try (vm_compute; reflexivity).
  vm_compute. discriminate.
Qed.

(** ** The security group of the producer instance *)

Lemma in_cidr_any (a : Z) : 0 ≤ a < 2 ^ 32 → in_cidr 0 0 a = true.
Proof.
  intros Ha. unfold in_cidr. apply bool_decide_eq_true.
  rewrite Z.shiftr_div_pow2 by lia. rewrite Z.shiftr_div_pow2 by lia.
  rewrite Z.div_small by lia. reflexivity.
Qed.

(** C10. In every deployment the producer instance is placed in the
    security group "SecurityGroup", whose rules admit TCP port 22 from
    every IPv4 address and every protocol and port from members of the
    group itself. *)
Theorem security_group_ingress (i : string) (p : option StackProps)
    (a : Z) (proto : Protocol) (port : Z) :
  0 ≤ a < 2 ^ 32 →
  ∃ rules,
    ec2.securityGroup <$> instanceProps (StreamingEtl i p) "ProducerInstance"
      = Some "SecurityGroup"
    ∧ ingressRules (StreamingEtl i p) "SecurityGroup" = Some rules
    ∧ admits rules (fromAddress a) TCP 22 = true
    ∧ admits rules (fromGroup "SecurityGroup") proto port = true.
Proof.
  intros Ha.
  exists [ {| ec2.peer := ec2.anyIpv4; ec2.connection := ec2.tcp 22 |};
           {| ec2.peer := ec2.securityGroupPeer "SecurityGroup";
              ec2.connection := ec2.allTraffic |} ].
  split; [vm_compute; reflexivity|]. split; [vm_compute; reflexivity|]. split.
  - unfold admits. cbn [existsb]. unfold rule_admits.
    cbn [ec2.peer ec2.connection peer_matches port_matches].
    rewrite in_cidr_any by exact Ha. reflexivity.
  - unfold admits. cbn [existsb]. unfold rule_admits.
    cbn [ec2.peer ec2.connection peer_matches port_matches andb orb].
    rewrite bool_decide_eq_true_2 by reflexivity. reflexivity.
Qed.

Lemma security_group_ingress_witness :
  0 ≤ 3232235777 < 2 ^ 32
  ∧ ∃ rules,
      ec2.securityGroup <$> instanceProps (StreamingEtl "StreamingEtl" None) "ProducerInstance"
        = Some "SecurityGroup"
      ∧ ingressRules (StreamingEtl "StreamingEtl" None) "SecurityGroup" = Some rules
      ∧ admits rules (fromAddress 3232235777) TCP 22 = true
      ∧ admits rules (fromGroup "SecurityGroup") UDP 4000 = true.
Proof.
  split; [lia|].
  apply (security_group_ingress "StreamingEtl" None 3232235777 UDP 4000). lia.
Defined.

(** ** The configuration surface *)

(** C5, as amended.  In every deployment the topology has shard count
    16, checkpoint interval and minimum checkpoint pause 60000 ms (60 s),
    parallelism 2, monitoring verbosity INFO, metrics granularity TASK
    and snapshots disabled; these are literals of the constructor, and no
    deployment input changes any of them. *)
Theorem configuration_surface_fixed (i : string) (p : option StackProps) :
  settings (StreamingEtl i p)
  = Some {| shardCount := Some 16;
            checkpointIntervalMs := Some 60000;
            minimumCheckpointPauseMs := Some 60000;
            parallelism := 2;
            monitoringVerbosity := "INFO";
            metricsGranularity := "TASK";
            snapshotOnUpdate := false |}
  ∧ toMilliseconds {| amount := 60; unit := Seconds |} = 60000
  ∧ ¬ overridable settings.
Proof.
  split; [vm_compute; reflexivity|]. split; [reflexivity|].
  intros (j & j' & q & q' & Hne). apply Hne.
  rewrite (StreamingEtl_settings j q), (StreamingEtl_settings j' q'). reflexivity.
Qed.

(** C5, refuted as stated: the shard count cannot be overridden per
    deployment, whatever id and props the stack is created with. *)
Lemma shard_count_not_overridable :
  ¬ overridable (λ s, shardCount <$> settings s).
Proof.
  intros (j & j' & q & q' & Hne). apply Hne.
  rewrite (StreamingEtl_settings j q), (StreamingEtl_settings j' q'). reflexivity.
Qed.

(** ** The dashboard *)

(** C4. The dashboard has exactly four rows, in the order inbound
    throughput, outbound throughput, consumer lag, storage-sink
    throughput.  The three throughput widgets pair one metric on the
    left axis with one on the right (records with bytes, requests with
    bytes), each axis starting at 0; the consumer-lag widget shows the
    metric millisBehindLatest twice, with statistic max and with
    statistic avg. *)
Theorem dashboard_composition (i : string) (p : option StackProps) :
  ∃ w1 w2 w3 w4 m m',
    dashboardRows (StreamingEtl i p) "Dashboard" = Some [w1; w2; w3; w4]
    ∧ widgetRole <$> [w1; w2; w3; w4]
      = [ Some InboundThroughput; Some OutboundThroughput; Some ConsumerLag;
          Some StorageSinkThroughput ]
    ∧ pairedFromZero w1 ∧ pairedFromZero w2 ∧ pairedFromZero w4
    ∧ (λ w, (cloudwatch.metricName <$> cloudwatch.left w,
             cloudwatch.metricName <$> cloudwatch.right w)) <$> [w1; w2; w4]
      = [ (["IncomingRecords"], ["IncomingBytes"]);
          (["GetRecords.Records"], ["GetRecords.Bytes"]);
          (["PutRequests"], ["BytesUploaded"]) ]
    ∧ cloudwatch.left w3 = [m; m'] ∧ cloudwatch.right w3 = []
    ∧ cloudwatch.metricName m = "millisBehindLatest"
    ∧ cloudwatch.statistic m = "max" ∧ cloudwatch.statistic m' = "avg"
    ∧ sameMetric m m'
    ∧ lowerBound (cloudwatch.leftYAxis w3) = Some 0.
Proof.
  assert (Hpair : ∀ w l r,
            cloudwatch.left w = [l] → cloudwatch.right w = [r] →
            lowerBound (cloudwatch.leftYAxis w) = Some 0 →
            lowerBound (cloudwatch.rightYAxis w) = Some 0 → pairedFromZero w).
  { intros w l r Hl Hr Hlo Hlo'. exists l, r, 0, 0. repeat split; done. }
  do 6 eexists.
  split; [vm_compute; reflexivity|].
  split; [vm_compute; reflexivity|].
  split; [eapply Hpair; vm_compute; reflexivity|].
  split; [eapply Hpair; vm_compute; reflexivity|].
  split; [eapply Hpair; vm_compute; reflexivity|].
  repeat split; vm_compute; reflexivity.
Qed.

(** ** The bootstrap of the producer instance *)

Lemma run_lines_commands (outcome : Text → Z) (script : list Text) (last : Z) :
  command <$> run_lines false outcome last script = script.
Proof.
  revert last. induction script as [|c rest IH]; intros last; [reflexivity|].
  cbn. f_equal. apply IH.
Qed.

Lemma run_userData_commands (outcome : Text → Z) (u : ec2.UserData) :
  errexit u = false → command <$> run_userData outcome u = ec2.lines u.
Proof. intros He. unfold run_userData. rewrite He. apply run_lines_commands. Qed.

(** C6. The user data of the producer instance, as it stands when the
    constructor has finished, has exactly four lines: install the
    runtime dependencies, start the application (named by reference),
    copy the artifact from the bucket, signal completion.  Whatever the
    exit statuses of the lines are, so also when starting an application
    that already runs fails, the script runs all four in this order, and
    a completion status is reported. *)
Theorem bootstrap_steps (i : string) (p : option StackProps) (outcome : Text → Z)
    (u : ec2.UserData) :
  instanceUserData (StreamingEtl i p) "ProducerInstance" = Some u →
  classify <$> ec2.lines u
    = [ Some InstallDependencies; Some StartApplication; Some CopyArtifact;
        Some SignalCompletion ]
  ∧ command <$> run_userData outcome u = ec2.lines u
  ∧ (text_refs <$> ec2.lines u) !! 1%nat = Some ["KdaApplication"]
  ∧ (text_refs <$> ec2.lines u) !! 2%nat = Some ["Bucket"]
  ∧ is_Some (reported (run_userData outcome u)).
Proof.
  intros Hu. vm_compute in Hu. injection Hu as <-.
  split; [vm_compute; reflexivity|].
  split; [apply run_userData_commands; vm_compute; reflexivity|].
  split; [vm_compute; reflexivity|].
  split; [vm_compute; reflexivity|].
  eexists. vm_compute. reflexivity.
Qed.

(** An outcome under which starting the application fails with status
    255 and every other line succeeds. *)
Lemma bootstrap_steps_witness :
  ∃ u,
    instanceUserData (StreamingEtl "StreamingEtl" None) "ProducerInstance" = Some u
    ∧ classify <$> ec2.lines u
      = [ Some InstallDependencies; Some StartApplication; Some CopyArtifact;
          Some SignalCompletion ]
    ∧ command <$> run_userData
        (λ c, if bool_decide (classify c = Some StartApplication) then 255 else 0) u
      = ec2.lines u.
Proof.
  destruct (bootstrap_steps "StreamingEtl" None
              (λ c, if bool_decide (classify c = Some StartApplication) then 255 else 0)
              _ ltac:(vm_compute; reflexivity)) as (Hc & Hr & _).
  eexists. split; [vm_compute; reflexivity|]. split; [exact Hc|exact Hr].
Defined.

(** C7. When the line that starts the application fails, the line that
    copies the artifact is still run, as the line after it: it sees the
    failed status in [$?] and has an exit status of its own. *)
Theorem copy_runs_after_failed_start (i : string) (p : option StackProps)
    (outcome : Text → Z) (u : ec2.UserData) (st : Z) :
  instanceUserData (StreamingEtl i p) "ProducerInstance" = Some u →
  statusOfStep StartApplication (run_userData outcome u) = Some st →
  st ≠ 0 →
  ∃ e, run_userData outcome u !! 2%nat = Some e
       ∧ classify (command e) = Some CopyArtifact
       ∧ statusBefore e = st
       ∧ statusOfStep CopyArtifact (run_userData outcome u) = Some (exitStatus e).
Proof.
  intros Hu Hst _. vm_compute in Hu. injection Hu as <-.
  vm_compute in Hst. injection Hst as <-.
  eexists. split; [vm_compute; reflexivity|].
  repeat split; vm_compute; reflexivity.
Qed.

Lemma copy_runs_after_failed_start_witness :
  ∃ u e,
    instanceUserData (StreamingEtl "StreamingEtl" None) "ProducerInstance" = Some u
    ∧ run_userData
        (λ c, if bool_decide (classify c = Some StartApplication) then 255 else 0) u
        !! 2%nat = Some e
    ∧ classify (command e) = Some CopyArtifact
    ∧ statusBefore e = 255.
Proof.
  eexists.
  destruct (copy_runs_after_failed_start "StreamingEtl" None
              (λ c, if bool_decide (classify c = Some StartApplication) then 255 else 0)
              _ 255 ltac:(vm_compute; reflexivity) ltac:(vm_compute; reflexivity)
              ltac:(lia)) as (e & He & Hc & Hb & _).
  exists e. split; [vm_compute; reflexivity|]. split; [exact He|]. split; assumption.
Defined.

(** C9. The completion status the instance reports is the exit status
    of the line that copies the artifact, the line right before
    [cfn-signal -e $?]; so when the copy succeeds the instance reports
    success, whatever the exit status of the line that starts the
    application. *)
Theorem completion_signal_reports_copy_status (i : string) (p : option StackProps)
    (outcome : Text → Z) (u : ec2.UserData) :
  instanceUserData (StreamingEtl i p) "ProducerInstance" = Some u →
  is_Some (reported (run_userData outcome u))
  ∧ reported (run_userData outcome u)
    = statusOfStep CopyArtifact (run_userData outcome u)
  ∧ (statusOfStep CopyArtifact (run_userData outcome u) = Some 0 →
     reported (run_userData outcome u) = Some 0).
Proof.
  intros Hu. vm_compute in Hu. injection Hu as <-.
  split; [eexists; vm_compute; reflexivity|].
  split; [vm_compute; reflexivity|].
  intros H0. vm_compute in H0. vm_compute. exact H0.
Qed.

Lemma completion_signal_reports_copy_status_witness :
  ∃ u,
    instanceUserData (StreamingEtl "StreamingEtl" None) "ProducerInstance" = Some u
    ∧ statusOfStep StartApplication (run_userData
        (λ c, if bool_decide (classify c = Some StartApplication) then 255 else 0) u)
      = Some 255
    ∧ reported (run_userData
        (λ c, if bool_decide (classify c = Some StartApplication) then 255 else 0) u)
      = Some 0.
Proof.
  destruct (completion_signal_reports_copy_status "StreamingEtl" None
              (λ c, if bool_decide (classify c = Some StartApplication) then 255 else 0)
              _ ltac:(vm_compute; reflexivity)) as (_ & _ & Hr).
  eexists. split; [vm_compute; reflexivity|]. split; [vm_compute; reflexivity|].
  apply Hr. vm_compute. reflexivity.
Defined.

(** ** Readiness gates *)

Lemma signal_terminal (g : Gate) (success : bool) (reason : string) :
  is_terminal (gateState g) = true → signal g success reason = (Err AlreadySignaled, g).
Proof. intros Ht. unfold signal. rewrite Ht. reflexivity. Qed.

Lemma signal_leaves_terminal (g : Gate) (success : bool) (reason : string) :
  is_terminal (gateState (signal g success reason).2) = true.
Proof.
  unfold signal. destruct (is_terminal (gateState g)) eqn:Ht; cbn; [exact Ht|].
  destruct success; reflexivity.
Qed.

(** C2. Of two signal calls made one after the other on a Gate, the
    second is rejected with AlreadySignaled and leaves the Gate as the
    first call left it; when the Gate was waiting, the first call is
    accepted and the Gate's outcome after both calls is the outcome the
    first signal carried.  A signal to a Gate that is already in a
    terminal state is rejected and changes nothing. *)
Theorem second_signal_rejected (g : Gate) (b1 b2 : bool) (r1 r2 : string) :
  signal (signal g b1 r1).2 b2 r2 = (Err AlreadySignaled, (signal g b1 r1).2)
  ∧ (gateState g = WAITING →
     (signal g b1 r1).1 = Ok ()
     ∧ gateState (signal (signal g b1 r1).2 b2 r2).2 = signalled_state b1
     ∧ await (signal (signal g b1 r1).2 b2 r2).2
       = Some (if b1 then Success else Failure)
     ∧ gateReason (signal (signal g b1 r1).2 b2 r2).2 = r1)
  ∧ (is_terminal (gateState g) = true →
     signal g b2 r2 = (Err AlreadySignaled, g)).
Proof.
  split; [apply signal_terminal, signal_leaves_terminal|].
  split; [|apply signal_terminal].
  intros Hw. rewrite (signal_terminal _ b2 r2) by apply signal_leaves_terminal.
  unfold signal. rewrite Hw. cbn. destruct b1; repeat split.
Qed.

Lemma second_signal_rejected_witness :
  gateState (create "consumer" 600) = WAITING
  ∧ await (signal (signal (create "consumer" 600) false "build failed").2
             true "build succeeded").2 = Some Failure
  ∧ (signal (signal (create "consumer" 600) false "build failed").2
       true "build succeeded").1 = Err AlreadySignaled.
Proof.
  destruct (second_signal_rejected (create "consumer" 600) false true
              "build failed" "build succeeded") as (H2 & Hw & _).
  destruct (Hw eq_refl) as (_ & _ & Ha & _).
  split; [reflexivity|]. split; [exact Ha|]. rewrite H2. reflexivity.
Defined.

(** ** The checkpoint policy *)



(** ** Deployment order *)

Section EngineFacts.

Variable topo : gmap string Node.
Variable timeoutOf : string → Z.

Lemma statusOf_set_status (r r' : string) (st : Status) (d : Deployment) :
  statusOf (set_status r st d) r' = if decide (r = r') then st else statusOf d r'.
Proof.
  unfold statusOf, set_status; cbn. rewrite lookup_insert.
  destruct (decide (r = r')); reflexivity.
Qed.

Lemma gateStateOf_set_gate (g g' : string) (v : Gate) (d : Deployment) :
  gateStateOf (set_gate g v d) g'
  = if decide (g = g') then Some (gateState v) else gateStateOf d g'.
Proof.
  unfold gateStateOf, set_gate; cbn. rewrite lookup_insert.
  destruct (decide (g = g')); reflexivity.
Qed.

Lemma signal_keeps_success (v : Gate) (success : bool) (reason : string) :
  gateState v = SIGNALED_SUCCESS →
  gateState (signal v success reason).2 = SIGNALED_SUCCESS.
Proof. intros H. unfold signal. rewrite H. exact H. Qed.

Lemma expire_keeps_success (v : Gate) :
  gateState v = SIGNALED_SUCCESS → gateState (expire v) = SIGNALED_SUCCESS.
Proof. intros H. unfold expire. rewrite H. exact H. Qed.

(** A change of status of a resource that is not Ready leaves every met
    dependency met. *)
Lemma satisfied_set_status (r : string) (st : Status) (d : Deployment) (dep : string) :
  statusOf d r ≠ Ready →
  satisfied topo d dep = true → satisfied topo (set_status r st d) dep = true.
Proof.
  intros Hr. unfold satisfied. destruct (kind <$> topo !! dep) as [k|]; [|done].
  destruct k; try done;
    rewrite !bool_decide_eq_true, statusOf_set_status;
    (destruct (decide (r = dep)) as [->|]; [congruence|done]).
Qed.

(** A change of a Gate that keeps SIGNALED_SUCCESS leaves every met
    dependency met. *)
Lemma satisfied_set_gate (g : string) (v v' : Gate) (d : Deployment) (dep : string) :
  gates d !! g = Some v →
  (gateState v = SIGNALED_SUCCESS → gateState v' = SIGNALED_SUCCESS) →
  satisfied topo d dep = true → satisfied topo (set_gate g v' d) dep = true.
Proof.
  intros Hg Hkeep. unfold satisfied. destruct (kind <$> topo !! dep) as [k|]; [|done].
  destruct k; try done.
  rewrite !bool_decide_eq_true, gateStateOf_set_gate.
  destruct (decide (g = dep)) as [->|]; [|done].
  unfold gateStateOf. rewrite Hg. cbn. intros [= H]. f_equal. auto.
Qed.

Lemma satisfied_step (d d' : Deployment) (e : Event) (dep : string) :
  step topo d e = Some d' →
  satisfied topo d dep = true → satisfied topo d' dep = true.
Proof.
  intros Hstep Hsat. destruct e as [r|r|r|g b reason|g|r]; cbn in Hstep.
  - destruct (topo !! r) as [n|]; [cbn in Hstep|done].
    destruct (bool_decide (statusOf d r = Pending)) eqn:Hp;
      [|rewrite andb_false_r in Hstep; done].
    apply bool_decide_eq_true in Hp.
    destruct (_ && _ && _); [|done]. injection Hstep as <-.
    apply satisfied_set_status; [congruence|done].
  - destruct (bool_decide (statusOf d r = InProgress)) eqn:Hp; [|done].
    apply bool_decide_eq_true in Hp. injection Hstep as <-.
    apply satisfied_set_status; [congruence|done].
  - destruct (bool_decide (statusOf d r = InProgress)) eqn:Hp; [|done].
    apply bool_decide_eq_true in Hp. injection Hstep as <-.
    apply satisfied_set_status; [congruence|done].
  - destruct (gates d !! g) as [v|] eqn:Hg; [cbn in Hstep|done].
    injection Hstep as <-.
    eapply satisfied_set_gate; [exact Hg|apply signal_keeps_success|done].
  - destruct (gates d !! g) as [v|] eqn:Hg; [cbn in Hstep|done].
    injection Hstep as <-.
    eapply satisfied_set_gate; [exact Hg|apply expire_keeps_success|done].
  - destruct (topo !! r) as [n|]; [cbn in Hstep|done].
    destruct (bool_decide (statusOf d r = Pending)) eqn:Hp;
      [|rewrite andb_false_r in Hstep; done].
    apply bool_decide_eq_true in Hp.
    destruct (_ && _ && _); [|done]. injection Hstep as <-.
    apply satisfied_set_status; [congruence|done].
Qed.

(** A resource has begun activation after a step only if it had before,
    or if the step is its [Begin], taken with all dependencies met. *)
Lemma started_step (d d' : Deployment) (e : Event) (r : string) :
  step topo d e = Some d' → started d' r = true →
  started d r = true
  ∨ ∃ n, e = Begin r ∧ topo !! r = Some n ∧ statusOf d r = Pending
         ∧ forallb (satisfied topo d) (needs n) = true.
Proof.
  intros Hstep Hst. destruct e as [r'|r'|r'|g b reason|g|r']; cbn in Hstep.
  - destruct (topo !! r') as [n|] eqn:Hn; [cbn in Hstep|done].
    destruct (bool_decide (kind n ≠ KGate)); [|done].
    destruct (bool_decide (statusOf d r' = Pending)) eqn:Hp; [|done].
    destruct (forallb (satisfied topo d) (needs n)) eqn:Hall; [|done].
    cbn in Hstep. injection Hstep as <-. apply bool_decide_eq_true in Hp.
    unfold started in *. rewrite statusOf_set_status in Hst.
    destruct (decide (r' = r)) as [->|]; [right; eauto|left; done].
  - destruct (bool_decide (statusOf d r' = InProgress)) eqn:Hp; [|done].
    apply bool_decide_eq_true in Hp. injection Hstep as <-. left.
    unfold started in *. rewrite statusOf_set_status in Hst.
    destruct (decide (r' = r)) as [->|]; [rewrite Hp|]; done.
  - destruct (bool_decide (statusOf d r' = InProgress)) eqn:Hp; [|done].
    apply bool_decide_eq_true in Hp. injection Hstep as <-. left.
    unfold started in *. rewrite statusOf_set_status in Hst.
    destruct (decide (r' = r)) as [->|]; [rewrite Hp|]; done.
  - destruct (gates d !! g); [cbn in Hstep|done]. injection Hstep as <-. left; done.
  - destruct (gates d !! g); [cbn in Hstep|done]. injection Hstep as <-. left; done.
  - destruct (topo !! r') as [n|] eqn:Hn; [cbn in Hstep|done].
    destruct (_ && _ && _); [|done]. injection Hstep as <-. left.
    unfold started in *. rewrite statusOf_set_status in Hst.
    destruct (decide (r' = r)) as [->|]; done.
Qed.

Lemma dependenciesMet_init : dependenciesMet topo (init topo timeoutOf).
Proof. intros r n dep _ Hst. done. Qed.

Lemma dependenciesMet_step (d d' : Deployment) (e : Event) :
  dependenciesMet topo d → step topo d e = Some d' → dependenciesMet topo d'.
Proof.
  intros Inv Hstep r n dep Hn Hst Hin.
  eapply satisfied_step; [exact Hstep|].
  destruct (started_step _ _ _ _ Hstep Hst) as [Hold|(n' & _ & Hn' & _ & Hall)].
  - eapply Inv; eauto.
  - assert (n' = n) as -> by congruence.
    rewrite forallb_forall in Hall. apply Hall. apply list_elem_of_In. exact Hin.
Qed.

Lemma dependenciesMet_run (es : list Event) (d d' : Deployment) :
  dependenciesMet topo d → run topo d es = Some d' → dependenciesMet topo d'.
Proof.
  revert d. induction es as [|e es IH]; intros d Inv Hrun; cbn in Hrun.
  - injection Hrun as <-. exact Inv.
  - destruct (step topo d e) as [d1|] eqn:Hstep; [cbn in Hrun|done].
    eapply IH; [|exact Hrun]. eapply dependenciesMet_step; eauto.
Qed.

Lemma run_app (es1 es2 : list Event) (d : Deployment) :
  run topo d (es1 ++ es2) = run topo d es1 ≫= λ d1, run topo d1 es2.
Proof.
  revert d. induction es1 as [|e es1 IH]; intros d; [reflexivity|].
  cbn. destruct (step topo d e); [cbn; apply IH|reflexivity].
Qed.

(** The state an event of a run is taken in, with what the event needs:
    a [Begin] is taken by a Pending resource with all dependencies met,
    a [Finish] by a resource in progress, whose dependencies are met as
    in every state the run passes through. *)
Lemma run_split (es1 es2 : list Event) (e : Event) :
  is_Some (run topo (init topo timeoutOf) (es1 ++ e :: es2)) →
  ∃ d1 d2, run topo (init topo timeoutOf) es1 = Some d1
           ∧ step topo d1 e = Some d2 ∧ dependenciesMet topo d1
           ∧ dependenciesMet topo d2.
Proof.
  intros [d' Hrun]. rewrite run_app in Hrun.
  destruct (run topo (init topo timeoutOf) es1) as [d1|] eqn:H1; [cbn in Hrun|done].
  destruct (step topo d1 e) as [d2|] eqn:H2; [|done].
  exists d1, d2. split; [done|]. split; [done|].
  assert (dependenciesMet topo d1)
    by (eapply dependenciesMet_run; [apply dependenciesMet_init|exact H1]).
  split; [done|]. eapply dependenciesMet_step; eauto.
Qed.

Lemma step_Begin (d d' : Deployment) (r : string) :
  step topo d (Begin r) = Some d' →
  ∃ n, topo !! r = Some n ∧ statusOf d r = Pending
       ∧ forallb (satisfied topo d) (needs n) = true.
Proof.
  cbn. destruct (topo !! r) as [n|]; [cbn|done].
  destruct (bool_decide (kind n ≠ KGate)); [|done].
  destruct (bool_decide (statusOf d r = Pending)) eqn:Hp; [|done].
  destruct (forallb (satisfied topo d) (needs n)) eqn:Hall; [|done].
  apply bool_decide_eq_true in Hp. eauto.
Qed.

Lemma step_Finish (d d' : Deployment) (r : string) :
  step topo d (Finish r) = Some d' → statusOf d r = InProgress.
Proof.
  cbn. destruct (bool_decide (statusOf d r = InProgress)) eqn:Hp; [|done].
  apply bool_decide_eq_true in Hp. done.
Qed.

Lemma met_gate (d : Deployment) (g : string) :
  kind <$> topo !! g = Some KGate → satisfied topo d g = true →
  gateStateOf d g = Some SIGNALED_SUCCESS.
Proof. intros Hk. unfold satisfied. rewrite Hk. apply bool_decide_eq_true. Qed.

Lemma met_resource (d : Deployment) (r : string) (k : Kind) :
  kind <$> topo !! r = Some k → k ≠ KGate → satisfied topo d r = true →
  statusOf d r = Ready.
Proof.
  intros Hk Hne. unfold satisfied. rewrite Hk.
  destruct k; try done; apply bool_decide_eq_true.
Qed.

(** The order of activation along the edges of a topology in which
    [app] depends on the Gate [cg], and [inst] on the Gate [pg] and on
    [app]. *)
Lemma gated_order (app inst cg pg : string) (nApp nInst : Node) (k : Kind)
    (es : list Event) (d : Deployment) :
  topo !! app = Some nApp → cg ∈ needs nApp →
  topo !! inst = Some nInst → pg ∈ needs nInst → app ∈ needs nInst →
  kind <$> topo !! cg = Some KGate → kind <$> topo !! pg = Some KGate →
  kind nApp ≠ KGate →
  run topo (init topo timeoutOf) es = Some d →
  (started d app = true → gateStateOf d cg = Some SIGNALED_SUCCESS)
  ∧ (started d inst = true →
     gateStateOf d pg = Some SIGNALED_SUCCESS ∧ statusOf d app = Ready)
  ∧ (∀ es1 es2, es = es1 ++ Begin app :: es2 →
     ∃ d1, run topo (init topo timeoutOf) es1 = Some d1
           ∧ statusOf d1 app = Pending
           ∧ gateStateOf d1 cg = Some SIGNALED_SUCCESS)
  ∧ (∀ es1 es2, es = es1 ++ Begin inst :: es2 →
     ∃ d1, run topo (init topo timeoutOf) es1 = Some d1
           ∧ statusOf d1 inst = Pending
           ∧ gateStateOf d1 pg = Some SIGNALED_SUCCESS
           ∧ statusOf d1 app = Ready)
  ∧ (∀ es1 es2, es = es1 ++ Finish inst :: es2 →
     ∃ d1, run topo (init topo timeoutOf) es1 = Some d1
           ∧ statusOf d1 inst = InProgress
           ∧ statusOf d1 app = Ready).
Proof.
  intros Happ Hcg Hinst Hpg Hai Kcg Kpg Kapp Hrun.
  assert (Kapp' : kind <$> topo !! app = Some (kind nApp)) by (rewrite Happ; done).
  assert (Inv : dependenciesMet topo d)
    by (eapply dependenciesMet_run; [apply dependenciesMet_init|exact Hrun]).
  split; [intros Hst; eapply met_gate; eauto|].
  split; [intros Hst; split; [eapply met_gate|eapply met_resource]; eauto|].
  split.
  { intros es1 es2 ->.
    destruct (run_split es1 es2 _ (mk_is_Some _ _ Hrun)) as (d1 & d2 & H1 & H2 & _ & _).
    apply step_Begin in H2 as (n & Hn & Hp & Hall).
    assert (n = nApp) as -> by congruence. rewrite forallb_forall in Hall.
    exists d1. split; [exact H1|]. split; [exact Hp|].
    eapply met_gate; [exact Kcg|]. apply Hall, list_elem_of_In, Hcg. }
  split.
  { intros es1 es2 ->.
    destruct (run_split es1 es2 _ (mk_is_Some _ _ Hrun)) as (d1 & d2 & H1 & H2 & _ & _).
    apply step_Begin in H2 as (n & Hn & Hp & Hall).
    assert (n = nInst) as -> by congruence. rewrite forallb_forall in Hall.
    exists d1. split; [exact H1|]. split; [exact Hp|]. split.
    - eapply met_gate; [exact Kpg|]. apply Hall, list_elem_of_In, Hpg.
    - eapply met_resource; [exact Kapp'|exact Kapp|]. apply Hall, list_elem_of_In, Hai. }
  intros es1 es2 ->.
  destruct (run_split es1 es2 _ (mk_is_Some _ _ Hrun)) as (d1 & d2 & H1 & H2 & Inv1 & _).
  apply step_Finish in H2.
  exists d1. split; [exact H1|]. split; [exact H2|].
  eapply met_resource; [exact Kapp'|exact Kapp|].
  eapply Inv1; [exact Hinst| |exact Hai]. unfold started. rewrite H2. reflexivity.
Qed.

End EngineFacts.

Lemma topology_application (i : string) (p : option StackProps) :
  topology (StreamingEtl i p) !! "KdaApplication"
  = Some {| kind := KProcessingApp;
            needs := [ "BuildArtifacts/ConsumerBuildSuccessWaitCondition"; "KdaRole";
                       "InputStream"; "Bucket" ] |}.
Proof. vm_compute. reflexivity. Qed.

Lemma topology_instance (i : string) (p : option StackProps) :
  topology (StreamingEtl i p) !! "ProducerInstance"
  = Some {| kind := KInstance;
            needs := [ "BuildArtifacts/ProducerBuildSuccessWaitCondition";
                       "SecurityGroup"; "ReplayRole"; "VPC"; "KdaApplication";
                       "Bucket" ] |}.
Proof. vm_compute. reflexivity. Qed.

Lemma topology_gates (i : string) (p : option StackProps) :
  kind <$> topology (StreamingEtl i p) !! "BuildArtifacts/ConsumerBuildSuccessWaitCondition"
  = Some KGate
  ∧ kind <$> topology (StreamingEtl i p) !! "BuildArtifacts/ProducerBuildSuccessWaitCondition"
    = Some KGate.
Proof. split; vm_compute; reflexivity. Qed.

(** C1. In every state a deployment attempt of the stack reaches, the
    application has begun activation only if its code-artifact Gate is
    SIGNALED_SUCCESS, and the instance has begun activation only if its
    client-artifact Gate is SIGNALED_SUCCESS and the application is
    Ready.  The step that begins the activation of either is taken in a
    state where this already holds, and the step that makes the instance
    Ready is taken in a state where the application is Ready: the
    application reaches Ready before the instance does. *)
Theorem gated_activation_order (i : string) (p : option StackProps)
    (timeoutOf : string → Z) (es : list Event) (d : Deployment) :
  deployment (StreamingEtl i p) timeoutOf es = Some d →
  (started d "KdaApplication" = true →
   gateStateOf d "BuildArtifacts/ConsumerBuildSuccessWaitCondition"
   = Some SIGNALED_SUCCESS)
  ∧ (started d "ProducerInstance" = true →
     gateStateOf d "BuildArtifacts/ProducerBuildSuccessWaitCondition"
     = Some SIGNALED_SUCCESS
     ∧ statusOf d "KdaApplication" = Ready)
  ∧ (∀ es1 es2, es = es1 ++ Begin "KdaApplication" :: es2 →
     ∃ d1, deployment (StreamingEtl i p) timeoutOf es1 = Some d1
           ∧ statusOf d1 "KdaApplication" = Pending
           ∧ gateStateOf d1 "BuildArtifacts/ConsumerBuildSuccessWaitCondition"
             = Some SIGNALED_SUCCESS)
  ∧ (∀ es1 es2, es = es1 ++ Begin "ProducerInstance" :: es2 →
     ∃ d1, deployment (StreamingEtl i p) timeoutOf es1 = Some d1
           ∧ statusOf d1 "ProducerInstance" = Pending
           ∧ gateStateOf d1 "BuildArtifacts/ProducerBuildSuccessWaitCondition"
             = Some SIGNALED_SUCCESS
           ∧ statusOf d1 "KdaApplication" = Ready)
  ∧ (∀ es1 es2, es = es1 ++ Finish "ProducerInstance" :: es2 →
     ∃ d1, deployment (StreamingEtl i p) timeoutOf es1 = Some d1
           ∧ statusOf d1 "ProducerInstance" = InProgress
           ∧ statusOf d1 "KdaApplication" = Ready).
Proof.
  unfold deployment. intros Hrun.
  refine (gated_order (topology (StreamingEtl i p)) timeoutOf
            "KdaApplication" "ProducerInstance"
            "BuildArtifacts/ConsumerBuildSuccessWaitCondition"
            "BuildArtifacts/ProducerBuildSuccessWaitCondition" _ _ KProcessingApp es d
            (topology_application i p) _ (topology_instance i p) _ _
            (proj1 (topology_gates i p)) (proj2 (topology_gates i p)) _ Hrun).
  - cbn. repeat constructor.
  - cbn. repeat constructor.
  - cbn. repeat constructor.
  - discriminate.
Qed.

(** The attempt [successfulDeployment] brings the instance to Ready, and
    with it the application. *)
Lemma gated_activation_order_witness :
  ∃ d,
    deployment (StreamingEtl "StreamingEtl" None) (λ _, 3600) successfulDeployment
    = Some d
    ∧ statusOf d "ProducerInstance" = Ready
    ∧ statusOf d "KdaApplication" = Ready
    ∧ gateStateOf d "BuildArtifacts/ProducerBuildSuccessWaitCondition"
      = Some SIGNALED_SUCCESS.
Proof.
  destruct (deployment (StreamingEtl "StreamingEtl" None) (λ _, 3600)
              successfulDeployment) as [d|] eqn:Hd; [|vm_compute in Hd; discriminate].
  exists d. split; [reflexivity|].
  assert (Hr : statusOf d "ProducerInstance" = Ready).
  { assert (H : (λ d, statusOf d "ProducerInstance") <$> Some d = Some Ready)
      by (rewrite <- Hd; vm_compute; reflexivity).
    injection H as H. exact H. }
  split; [exact Hr|].
  destruct (gated_activation_order _ _ _ _ _ Hd) as (_ & Hinst & _).
  destruct Hinst as [Hg Ha]; [unfold started; rewrite Hr; reflexivity|].
  split; [exact Ha|exact Hg].
Defined.

(** * Further properties *)

(** ** The security group *)

Lemma in_cidr_any_iff (a : Z) : in_cidr 0 0 a = true ↔ 0 ≤ a < 2 ^ 32.
Proof.
  unfold in_cidr. rewrite bool_decide_eq_true.
  rewrite !Z.shiftr_div_pow2 by lia. change (0 / 2 ^ (32 - 0)) with 0.
  change (32 - 0) with 32. rewrite Z.div_small_iff by lia. lia.
Qed.

(** X2. The security group admits nothing but what its two rules name:
    traffic from an address is admitted exactly when the address is an
    IPv4 address and the traffic goes to TCP port 22, traffic from a
    security group exactly when the group is the security group itself. *)
Theorem security_group_admits_exactly (i : string) (p : option StackProps)
    (rules : list ec2.IngressRule) (src : Source) (proto : Protocol) (port : Z) :
  ingressRules (StreamingEtl i p) "SecurityGroup" = Some rules →
  admits rules src proto port = true
  ↔ (∃ a, src = fromAddress a ∧ 0 ≤ a < 2 ^ 32 ∧ proto = TCP ∧ port = 22)
    ∨ src = fromGroup "SecurityGroup".
Proof.
  intros Hr. vm_compute in Hr. injection Hr as <-.
  unfold admits. cbn [existsb]. unfold rule_admits.
  cbn [ec2.peer ec2.connection]. rewrite orb_false_r, orb_true_iff, !andb_true_iff.
  destruct src as [a|g]; cbn [peer_matches port_matches].
  - rewrite in_cidr_any_iff. split.
    + intros [[Ha Hp]|[? _]]; [|done]. left. exists a.
      destruct proto; try done. apply bool_decide_eq_true in Hp. done.
    + intros [(a' & [= <-] & Ha & -> & ->)|?]; [|done]. left. done.
  - split.
    + intros [[? _]|[Hg _]]; [done|]. apply bool_decide_eq_true in Hg. right. congruence.
    + intros [(a' & ? & _)|[= ->]]; [done|]. right. split; [|done].
      apply bool_decide_eq_true. done.
Qed.

Lemma security_group_admits_exactly_witness :
  ∃ rules,
    ingressRules (StreamingEtl "StreamingEtl" None) "SecurityGroup" = Some rules
    ∧ admits rules (fromAddress 3232235777) TCP 443 = false
    ∧ admits rules (fromGroup "OtherGroup") TCP 22 = false.
Proof.
  eexists. split; [vm_compute; reflexivity|].
  split; apply not_true_is_false; intros H;
    apply (security_group_admits_exactly "StreamingEtl" None _ _ _ _
             ltac:(vm_compute; reflexivity)) in H;
    destruct H as [(a & Hs & _ & _ & Hp)|H];
    first [discriminate Hs | discriminate Hp | discriminate H].
Defined.

(** ** Well-formedness of the stack *)

Lemma dangling_nil (s : Stack) (i : string) (c : Construct) (r : string) :
  dangling s = [] → (i, c) ∈ children s → r ∈ mentioned s i c →
  isResource s r = true.
Proof.
  intros Hd Hc Hr. destruct (isResource s r) eqn:Hres; [reflexivity|].
  assert (Hin : (i, r) ∈ dangling s).
  { unfold dangling. apply list_elem_of_bind. exists (i, c). split; [|exact Hc].
    apply list_elem_of_fmap. exists r. split; [reflexivity|].
    apply list_elem_of_filter. split; [exact Hres|exact Hr]. }
  rewrite Hd in Hin. inversion Hin.
Qed.

Lemma isResource_true (s : Stack) (r : string) :
  isResource s r = true → ∃ c k, child s r = Some c ∧ kindOf c = Some k.
Proof.
  unfold isResource. destruct (child s r) as [c|]; [cbn|done].
  destruct (kindOf c) as [k|] eqn:Hk; [|done]. eauto.
Qed.

(** X6. No two constructs of the stack share an id, and every name a
    construct mentions, in a property, an output value, a line of user
    data or an explicit dependency, is the id of a resource declared in
    the stack. *)
Theorem references_resolve (i : string) (p : option StackProps) :
  NoDup (children (StreamingEtl i p)).*1
  ∧ ∀ (id : string) (c : Construct) (r : string),
      (id, c) ∈ children (StreamingEtl i p) →
      r ∈ mentioned (StreamingEtl i p) id c →
      ∃ c' k, child (StreamingEtl i p) r = Some c' ∧ kindOf c' = Some k.
Proof.
  split.
  - rewrite StreamingEtl_children. apply (bool_decide_unpack _). vm_compute. exact I.
  - intros id c r Hc Hr. apply isResource_true.
    apply (dangling_nil (StreamingEtl i p) id c r); [|exact Hc|exact Hr].
    vm_compute. reflexivity.
Qed.

Lemma references_resolve_witness :
  ∃ c c' k,
    child (StreamingEtl "StreamingEtl" None) "ConnectWithSessionManager" = Some c
    ∧ "ProducerInstance" ∈ mentioned (StreamingEtl "StreamingEtl" None)
                             "ConnectWithSessionManager" c
    ∧ child (StreamingEtl "StreamingEtl" None) "ProducerInstance" = Some c'
    ∧ kindOf c' = Some k.
Proof.
  pose (c := cdk_CfnOutput
               [ Lit "https://console.aws.amazon.com/systems-manager/session-manager/";
                 instanceId "ProducerInstance" ]).
  assert (Hr : "ProducerInstance" ∈ mentioned (StreamingEtl "StreamingEtl" None)
                                     "ConnectWithSessionManager" c)
    by (cbn; repeat constructor).
  destruct (proj2 (references_resolve "StreamingEtl" None)
              "ConnectWithSessionManager" c "ProducerInstance")
    as (c' & k & Hc' & Hk); [|exact Hr|].
  { apply list_elem_of_lookup. exists 18%nat. vm_compute. reflexivity. }
  exists c, c', k. split; [vm_compute; reflexivity|]. split; [exact Hr|].
  split; assumption.
Defined.

(** ** Acyclicity *)

Lemma edges_rank (i : string) (p : option StackProps) :
  Forall (λ e, (rank (StreamingEtl i p) e.2 < rank (StreamingEtl i p) e.1)%nat)
    (edges (StreamingEtl i p)).
Proof. apply (bool_decide_unpack _). vm_compute. exact I. Qed.

(** X7. Every resource of the stack is declared after the resources it
    depends on, directly or through other resources; so no resource
    depends on itself and the dependency graph has no cycle. *)
Theorem dependencies_acyclic (i : string) (p : option StackProps) :
  (∀ a b, dependsTransitively (StreamingEtl i p) a b →
          (rank (StreamingEtl i p) b < rank (StreamingEtl i p) a)%nat)
  ∧ (∀ a, ¬ dependsTransitively (StreamingEtl i p) a a).
Proof.
  assert (H : ∀ a b, dependsTransitively (StreamingEtl i p) a b →
                     (rank (StreamingEtl i p) b < rank (StreamingEtl i p) a)%nat).
  { intros a b Hab. induction Hab as [a b He|a b c _ IH1 _ IH2]; [|lia].
    pose proof (edges_rank i p) as HF. rewrite Forall_forall in HF.
    apply (HF (a, b)), He. }
  split; [exact H|]. intros a Ha. apply H in Ha. lia.
Qed.

Lemma dependencies_acyclic_witness :
  dependsTransitively (StreamingEtl "StreamingEtl" None) "ProducerInstance"
    "BuildArtifacts/ConsumerBuildSuccessWaitCondition"
  ∧ (rank (StreamingEtl "StreamingEtl" None)
       "BuildArtifacts/ConsumerBuildSuccessWaitCondition"
     < rank (StreamingEtl "StreamingEtl" None) "ProducerInstance")%nat.
Proof.
  assert (H : dependsTransitively (StreamingEtl "StreamingEtl" None) "ProducerInstance"
                "BuildArtifacts/ConsumerBuildSuccessWaitCondition").
  { apply depends_path with "KdaApplication"; apply depends_edge;
      apply (bool_decide_unpack _); vm_compute; exact I. }
  split; [exact H|]. apply (proj1 (dependencies_acyclic "StreamingEtl" None)), H.
Defined.

(** ** How the parts of the pipeline fit together *)

Lemma dashboardMetrics_StreamingEtl (i : string) (p : option StackProps) :
  dashboardMetrics (StreamingEtl i p) "Dashboard"
  = [ incomingRecords "InputStream"; incomingBytes "InputStream";
      outgoingRecords "InputStream"; outgoingBytes "InputStream";
      millisBehindLatest "InputStream" "KdaApplication";
      cloudwatch.Metric_with (millisBehindLatest "InputStream" "KdaApplication") "avg";
      putRequests "Bucket"; bytesUploaded "Bucket" ].
Proof. vm_compute. reflexivity. Qed.

(** X8. Every S3 metric on the dashboard is filtered by a metrics
    configuration that the bucket it watches declares: its FilterId is
    the id of an entry of that bucket's [metrics]. *)
Theorem s3_metrics_filter_declared (i : string) (p : option StackProps)
    (m : cloudwatch.Metric) :
  m ∈ dashboardMetrics (StreamingEtl i p) "Dashboard" →
  cloudwatch.namespace m = "AWS/S3" →
  ∃ b f props,
    cloudwatch.dimensions m !! "BucketName" = Some (VText [Tok (Ref b)])
    ∧ cloudwatch.dimensions m !! "FilterId" = Some (VText [Lit f])
    ∧ bucketProps (StreamingEtl i p) b = Some props
    ∧ {| s3.id := f |} ∈ s3.metrics props.
Proof.
  rewrite dashboardMetrics_StreamingEtl. intros Hm Hns.
  repeat (apply elem_of_cons in Hm as [->|Hm]); try discriminate Hns;
    [| |inversion Hm];
    (eexists _, _, _; split; [vm_compute; reflexivity|];
     split; [vm_compute; reflexivity|]; split; [vm_compute; reflexivity|];
     apply list_elem_of_here).
Qed.

Lemma s3_metrics_filter_declared_witness :
  ∃ b f props,
    cloudwatch.dimensions (bytesUploaded "Bucket") !! "BucketName"
    = Some (VText [Tok (Ref b)])
    ∧ cloudwatch.dimensions (bytesUploaded "Bucket") !! "FilterId"
      = Some (VText [Lit f])
    ∧ bucketProps (StreamingEtl "StreamingEtl" None) b = Some props
    ∧ {| s3.id := f |} ∈ s3.metrics props.
Proof.
  apply (s3_metrics_filter_declared "StreamingEtl" None (bytesUploaded "Bucket"));
    [|reflexivity].
  apply list_elem_of_lookup. exists 7%nat. vm_compute. reflexivity.
Defined.

(** X9. The application writes its output under a key prefix of the
    bucket that also holds its code; the code's key lies under
    [target/], and no key under the output prefix lies under [target/],
    so no output object can take the place of the code artifact. *)
Theorem output_apart_from_code (i : string) (p : option StackProps) :
  ∃ t b prefix loc,
    property (StreamingEtl i p) "KdaApplication" "FlinkApplicationProperties"
      "OutputBucket" = Some (VText t)
    ∧ s3Location t = Some (b, prefix)
    ∧ codeLocation (StreamingEtl i p) "KdaApplication" = Some loc
    ∧ arnOf (kda.bucketArn loc) = Some b
    ∧ String.prefix "target/" (kda.fileKey loc) = true
    ∧ (∀ name, String.prefix "target/" (prefix +:+ name) = false)
    ∧ (∀ name, prefix +:+ name ≠ kda.fileKey loc).
Proof.
  eexists _, _, _, _.
  split; [vm_compute; reflexivity|]. split; [vm_compute; reflexivity|].
  split; [vm_compute; reflexivity|]. split; [vm_compute; reflexivity|].
  split; [vm_compute; reflexivity|]. split; [intros name; reflexivity|].
  intros name H. discriminate H.
Qed.

(** X10. One stream runs through the pipeline: the stream the
    application is configured to read is the stream the producer's role
    is granted read and write access to, the stream the replay command
    of the outputs names, and the stream every Kinesis metric of the
    dashboard watches. *)
Theorem one_stream_end_to_end (i : string) (p : option StackProps) :
  ∃ stream gr cmd,
    is_Some (streamProps (StreamingEtl i p) stream)
    ∧ property (StreamingEtl i p) "KdaApplication" "FlinkApplicationProperties"
        "InputKinesisStream" = Some (VText [Tok (Ref stream)])
    ∧ ec2.role <$> instanceProps (StreamingEtl i p) "ProducerInstance"
      = Some "ReplayRole"
    ∧ roleGrants (StreamingEtl i p) "ReplayRole" = Some gr
    ∧ {| granted := GrantReadWrite; on := [Tok (GetAtt stream "Arn")] |} ∈ gr
    ∧ output (StreamingEtl i p) "ReplayCommand" = Some cmd
    ∧ text_refs cmd = [stream]
    ∧ (∀ m, m ∈ dashboardMetrics (StreamingEtl i p) "Dashboard" →
            cloudwatch.namespace m = "AWS/Kinesis" →
            cloudwatch.dimensions m !! "StreamName" = Some (VText [Tok (Ref stream)])).
Proof.
  exists "InputStream". eexists _, _.
  split; [eexists; vm_compute; reflexivity|].
  split; [vm_compute; reflexivity|]. split; [vm_compute; reflexivity|].
  split; [vm_compute; reflexivity|]. split; [apply list_elem_of_here|].
  split; [vm_compute; reflexivity|]. split; [vm_compute; reflexivity|].
  intros m. rewrite dashboardMetrics_StreamingEtl. intros Hm Hns.
  repeat (apply elem_of_cons in Hm as [->|Hm]); try discriminate Hns;
    [| | | |inversion Hm]; vm_compute; reflexivity.
Qed.

(** X11. What the bootstrap script asks of AWS, the producer's role
    allows, and no more widely than needed: the role of the instance has
    exactly one statement that allows starting an application, and it
    names the one ARN built from the application's own name; the role is
    granted read access to the bucket the copy command reads from. *)
Theorem bootstrap_calls_permitted (i : string) (p : option StackProps) :
  ∃ r pol gr app u start copy,
    ec2.role <$> instanceProps (StreamingEtl i p) "ProducerInstance" = Some r
    ∧ rolePolicy (StreamingEtl i p) r = Some pol
    ∧ roleGrants (StreamingEtl i p) r = Some gr
    ∧ applicationProps (StreamingEtl i p) "KdaApplication" = Some app
    ∧ iam.resources
        <$> filter (λ st, "kinesisanalytics:StartApplication" ∈ iam.actions st) pol
      = [ [ [ Lit "arn:"; Aws_PARTITION; Lit ":kinesisanalytics:"; Aws_REGION; Lit ":";
              Aws_ACCOUNT_ID; Lit ":application/" ] ++ kda.applicationName app ] ]
    ∧ instanceUserData (StreamingEtl i p) "ProducerInstance" = Some u
    ∧ ec2.lines u !! 1%nat = Some start
    ∧ classify start = Some StartApplication
    ∧ text_refs start = ["KdaApplication"]
    ∧ ec2.lines u !! 2%nat = Some copy
    ∧ classify copy = Some CopyArtifact
    ∧ (∀ b, b ∈ text_refs copy →
            {| granted := GrantRead; on := [Tok (GetAtt b "Arn")] |} ∈ gr).
Proof.
  eexists _, _, _, _, _, _, _.
  do 11 (split; [vm_compute; reflexivity|]).
  intros b Hb. vm_compute in Hb. apply list_elem_of_singleton in Hb as ->.
  apply list_elem_of_lookup. exists 1%nat. vm_compute. reflexivity.
Qed.

(** ** Deployments that fail *)

Lemma signal_keeps_terminal (v : Gate) (success : bool) (reason : string) :
  is_terminal (gateState v) = true → (signal v success reason).2 = v.
Proof. intros H. unfold signal. rewrite H. reflexivity. Qed.

Lemma expire_keeps_terminal (v : Gate) :
  is_terminal (gateState v) = true → expire v = v.
Proof. intros H. unfold expire. rewrite H. reflexivity. Qed.

Section FailedGates.

Variable topo : gmap string Node.

(** A Gate in a terminal state stays in that state. *)
Lemma gate_terminal_step (d d' : Deployment) (e : Event) (g : string) (st : GateState) :
  step topo d e = Some d' → gateStateOf d g = Some st → is_terminal st = true →
  gateStateOf d' g = Some st.
Proof.
  intros Hstep Hg Ht. destruct e as [r|r|r|g' b reason|g'|r]; cbn in Hstep.
  - destruct (topo !! r); [cbn in Hstep|done].
    destruct (_ && _ && _); [|done]. injection Hstep as <-. exact Hg.
  - destruct (bool_decide _); [|done]. injection Hstep as <-. exact Hg.
  - destruct (bool_decide _); [|done]. injection Hstep as <-. exact Hg.
  - destruct (gates d !! g') as [v|] eqn:Hv; [cbn in Hstep|done].
    injection Hstep as <-. rewrite gateStateOf_set_gate.
    destruct (decide (g' = g)) as [->|]; [|exact Hg].
    unfold gateStateOf in Hg. rewrite Hv in Hg. injection Hg as Hg.
    rewrite signal_keeps_terminal by (rewrite Hg; exact Ht). rewrite Hg. done.
  - destruct (gates d !! g') as [v|] eqn:Hv; [cbn in Hstep|done].
    injection Hstep as <-. rewrite gateStateOf_set_gate.
    destruct (decide (g' = g)) as [->|]; [|exact Hg].
    unfold gateStateOf in Hg. rewrite Hv in Hg. injection Hg as Hg.
    rewrite expire_keeps_terminal by (rewrite Hg; exact Ht). rewrite Hg. done.
  - destruct (topo !! r); [cbn in Hstep|done].
    destruct (_ && _ && _); [|done]. injection Hstep as <-. exact Hg.
Qed.

Lemma gate_terminal_run (es : list Event) (d d' : Deployment) (g : string)
    (st : GateState) :
  run topo d es = Some d' → gateStateOf d g = Some st → is_terminal st = true →
  gateStateOf d' g = Some st.
Proof.
  revert d. induction es as [|e es IH]; intros d Hrun Hg Ht; cbn in Hrun.
  - injection Hrun as <-. exact Hg.
  - destruct (step topo d e) as [d1|] eqn:Hstep; [cbn in Hrun|done].
    eapply IH; [exact Hrun| |exact Ht]. eapply gate_terminal_step; eauto.
Qed.

End FailedGates.

(** X12. Once the Gate of the application's code artifact has failed or
    timed out, no continuation of the deployment attempt begins the
    activation of the application or of the producer instance: both stay
    Pending or Blocked, whatever is signalled afterwards. *)
Theorem failed_code_gate_blocks (i : string) (p : option StackProps)
    (timeoutOf : string → Z) (es1 es2 : list Event) (d1 d : Deployment)
    (st : GateState) :
  deployment (StreamingEtl i p) timeoutOf es1 = Some d1 →
  gateStateOf d1 "BuildArtifacts/ConsumerBuildSuccessWaitCondition" = Some st →
  st = SIGNALED_FAILURE ∨ st = TIMED_OUT →
  deployment (StreamingEtl i p) timeoutOf (es1 ++ es2) = Some d →
  started d "KdaApplication" = false ∧ started d "ProducerInstance" = false.
Proof.
  unfold deployment. intros H1 Hg Hst Hrun.
  assert (Hg' : gateStateOf d "BuildArtifacts/ConsumerBuildSuccessWaitCondition"
                = Some st).
  { rewrite run_app, H1 in Hrun. cbn in Hrun.
    eapply gate_terminal_run; [exact Hrun|exact Hg|]. destruct Hst as [->| ->]; done. }
  destruct (gated_order (topology (StreamingEtl i p)) timeoutOf
              "KdaApplication" "ProducerInstance"
              "BuildArtifacts/ConsumerBuildSuccessWaitCondition"
              "BuildArtifacts/ProducerBuildSuccessWaitCondition" _ _ KProcessingApp
              (es1 ++ es2) d
              (topology_application i p) ltac:(cbn; repeat constructor)
              (topology_instance i p) ltac:(cbn; repeat constructor)
              ltac:(cbn; repeat constructor)
              (proj1 (topology_gates i p)) (proj2 (topology_gates i p))
              ltac:(discriminate) Hrun) as (Happ & Hinst & _).
  assert (Ha : started d "KdaApplication" = false).
  { destruct (started d "KdaApplication") eqn:E; [|reflexivity].
    specialize (Happ eq_refl). rewrite Hg' in Happ.
    destruct Hst as [->| ->]; discriminate Happ. }
  split; [exact Ha|].
  destruct (started d "ProducerInstance") eqn:E; [|reflexivity].
  destruct (Hinst eq_refl) as [_ Hr]. unfold started in Ha. rewrite Hr in Ha.
  discriminate Ha.
Qed.

Lemma failed_code_gate_blocks_witness :
  ∃ d1 d,
    deployment (StreamingEtl "StreamingEtl" None) (λ _, 3600)
      [ Signal "BuildArtifacts/ConsumerBuildSuccessWaitCondition" false "build failed" ]
    = Some d1
    ∧ gateStateOf d1 "BuildArtifacts/ConsumerBuildSuccessWaitCondition"
      = Some SIGNALED_FAILURE
    ∧ deployment (StreamingEtl "StreamingEtl" None) (λ _, 3600)
        ([ Signal "BuildArtifacts/ConsumerBuildSuccessWaitCondition" false "build failed" ]
         ++ [ Signal "BuildArtifacts/ConsumerBuildSuccessWaitCondition" true "retry";
              Signal "BuildArtifacts/ProducerBuildSuccessWaitCondition" true "ok";
              Begin "Bucket"; Finish "Bucket"; Cancel "KdaApplication" ])
      = Some d
    ∧ started d "KdaApplication" = false
    ∧ started d "ProducerInstance" = false.
Proof.
  destruct (deployment (StreamingEtl "StreamingEtl" None) (λ _, 3600)
              [ Signal "BuildArtifacts/ConsumerBuildSuccessWaitCondition" false
                  "build failed" ]) as [d1|] eqn:H1; [|vm_compute in H1; discriminate].
  destruct (deployment (StreamingEtl "StreamingEtl" None) (λ _, 3600)
              ([ Signal "BuildArtifacts/ConsumerBuildSuccessWaitCondition" false
                   "build failed" ]
               ++ [ Signal "BuildArtifacts/ConsumerBuildSuccessWaitCondition" true "retry";
                    Signal "BuildArtifacts/ProducerBuildSuccessWaitCondition" true "ok";
                    Begin "Bucket"; Finish "Bucket"; Cancel "KdaApplication" ]))
    as [d|] eqn:H2; [|vm_compute in H2; discriminate].
  assert (Hg : gateStateOf d1 "BuildArtifacts/ConsumerBuildSuccessWaitCondition"
               = Some SIGNALED_FAILURE).
  { assert (H : (λ d, gateStateOf d "BuildArtifacts/ConsumerBuildSuccessWaitCondition")
                  <$> Some d1 = Some (Some SIGNALED_FAILURE))
      by (rewrite <- H1; vm_compute; reflexivity).
    injection H as H. exact H. }
  exists d1, d. split; [reflexivity|]. split; [exact Hg|]. split; [reflexivity|].
  exact (failed_code_gate_blocks "StreamingEtl" None _ _ _ d1 d SIGNALED_FAILURE
           H1 Hg (or_introl eq_refl) H2).
Defined.

(** ** Deployments that succeed *)

(** X13. In every state a deployment attempt reaches in which the
    producer instance is Ready, both Gates are SIGNALED_SUCCESS and the
    application, the bucket, the stream, the network and both roles are
    Ready. *)
Theorem ready_instance_has_all_upstream (i : string) (p : option StackProps)
    (timeoutOf : string → Z) (es : list Event) (d : Deployment) :
  deployment (StreamingEtl i p) timeoutOf es = Some d →
  statusOf d "ProducerInstance" = Ready →
  gateStateOf d "BuildArtifacts/ConsumerBuildSuccessWaitCondition"
  = Some SIGNALED_SUCCESS
  ∧ gateStateOf d "BuildArtifacts/ProducerBuildSuccessWaitCondition"
    = Some SIGNALED_SUCCESS
  ∧ Forall (λ r, statusOf d r = Ready)
      [ "KdaApplication"; "Bucket"; "InputStream"; "KdaRole"; "VPC"; "SecurityGroup";
        "ReplayRole" ].
Proof.
  unfold deployment. intros Hrun Hr.
  assert (Inv : dependenciesMet (topology (StreamingEtl i p)) d)
    by (eapply dependenciesMet_run; [apply dependenciesMet_init|exact Hrun]).
  assert (Hi : ∀ dep, dep ∈ [ "BuildArtifacts/ProducerBuildSuccessWaitCondition";
                               "SecurityGroup"; "ReplayRole"; "VPC"; "KdaApplication";
                               "Bucket" ] →
                      satisfied (topology (StreamingEtl i p)) d dep = true).
  { intros dep Hd. apply (Inv "ProducerInstance" _ dep (topology_instance i p));
      [unfold started; rewrite Hr; reflexivity|exact Hd]. }
  assert (Happ : statusOf d "KdaApplication" = Ready).
  { apply (met_resource (topology (StreamingEtl i p)) d _ KProcessingApp);
      [rewrite topology_application; reflexivity|discriminate|].
    apply Hi. repeat constructor. }
  assert (Ha : ∀ dep, dep ∈ [ "BuildArtifacts/ConsumerBuildSuccessWaitCondition";
                               "KdaRole"; "InputStream"; "Bucket" ] →
                      satisfied (topology (StreamingEtl i p)) d dep = true).
  { intros dep Hd. apply (Inv "KdaApplication" _ dep (topology_application i p));
      [unfold started; rewrite Happ; reflexivity|exact Hd]. }
  split.
  { apply (met_gate (topology (StreamingEtl i p)) d _ (proj1 (topology_gates i p))).
    apply Ha. repeat constructor. }
  split.
  { apply (met_gate (topology (StreamingEtl i p)) d _ (proj2 (topology_gates i p))).
    apply Hi. repeat constructor. }
  repeat (apply Forall_cons; split); [exact Happ| | | | | | |done].
  - apply (met_resource (topology (StreamingEtl i p)) d _ KStore);
      [vm_compute; reflexivity|discriminate|apply Hi; repeat constructor].
  - apply (met_resource (topology (StreamingEtl i p)) d _ KLog);
      [vm_compute; reflexivity|discriminate|apply Ha; repeat constructor].
  - apply (met_resource (topology (StreamingEtl i p)) d _ KSupport);
      [vm_compute; reflexivity|discriminate|apply Ha; repeat constructor].
  - apply (met_resource (topology (StreamingEtl i p)) d _ KSupport);
      [vm_compute; reflexivity|discriminate|apply Hi; repeat constructor].
  - apply (met_resource (topology (StreamingEtl i p)) d _ KSupport);
      [vm_compute; reflexivity|discriminate|apply Hi; repeat constructor].
  - apply (met_resource (topology (StreamingEtl i p)) d _ KSupport);
      [vm_compute; reflexivity|discriminate|apply Hi; repeat constructor].
Qed.

Lemma ready_instance_has_all_upstream_witness :
  ∃ d,
    deployment (StreamingEtl "StreamingEtl" None) (λ _, 3600) successfulDeployment
    = Some d
    ∧ statusOf d "ProducerInstance" = Ready
    ∧ gateStateOf d "BuildArtifacts/ConsumerBuildSuccessWaitCondition"
      = Some SIGNALED_SUCCESS
    ∧ statusOf d "KdaApplication" = Ready.
Proof.
  destruct (deployment (StreamingEtl "StreamingEtl" None) (λ _, 3600)
              successfulDeployment) as [d|] eqn:Hd; [|vm_compute in Hd; discriminate].
  exists d. split; [reflexivity|].
  assert (Hr : statusOf d "ProducerInstance" = Ready).
  { assert (H : (λ d, statusOf d "ProducerInstance") <$> Some d = Some Ready)
      by (rewrite <- Hd; vm_compute; reflexivity).
    injection H as H. exact H. }
  split; [exact Hr|].
  destruct (ready_instance_has_all_upstream _ _ _ _ _ Hd Hr) as (Hc & _ & HF).
  split; [exact Hc|]. apply Forall_cons in HF as [Ha _]. exact Ha.
Defined.

(** ** More of how the parts fit together *)

(** X15. The instance is created to wait for a completion signal, for at
    most 300 seconds, and the last line of its user data sends that
    signal to the instance itself: the line is a [cfn-signal] whose
    resource is the instance's own logical id and whose stack is the
    stack's name. *)
Theorem instance_signals_itself (i : string) (p : option StackProps) :
  ∃ t u line,
    ec2.resourceSignalTimeout <$> instanceProps (StreamingEtl i p) "ProducerInstance"
    = Some (Some t)
    ∧ toSeconds t = 300
    ∧ instanceUserData (StreamingEtl i p) "ProducerInstance" = Some u
    ∧ last (ec2.lines u) = Some line
    ∧ classify line = Some SignalCompletion
    ∧ drop 2 line
      = [ Lit " --stack "; Aws_STACK_NAME; Lit " --resource ";
          logicalId "ProducerInstance"; Lit " --region "; Aws_REGION ].
Proof.
  eexists _, _, _.
  split; [vm_compute; reflexivity|]. split; [vm_compute; reflexivity|].
  split; [vm_compute; reflexivity|]. split; [vm_compute; reflexivity|].
  split; [vm_compute; reflexivity|]. reflexivity.
Qed.

(** X16. The application logs to a log stream of the stack: the logging
    option is attached to the application and names a log stream
    together with the log group that stream was created in, the group
    the Logs Insights output points to. *)
Theorem application_log_stream (i : string) (p : option StackProps) :
  ∃ opt g st,
    loggingOption (StreamingEtl i p) "KdsFlinkProducerLogging" = Some opt
    ∧ kda.loggingApplicationName opt = [ref "KdaApplication"]
    ∧ text_refs (kda.logStreamArn (kda.cloudWatchLoggingOption opt)) = [g; st]
    ∧ logs.logGroup <$> logStreamProps (StreamingEtl i p) st = Some g
    ∧ text_refs <$> output (StreamingEtl i p) "CloudwatchLogsInsights" = Some [g].
Proof.
  eexists _, _, _.
  split; [vm_compute; reflexivity|]. split; [vm_compute; reflexivity|].
  split; [vm_compute; reflexivity|]. split; vm_compute; reflexivity.
Qed.
